(** * WRAITH XDP packet filter: a shallow embedding of [xdp_filter.c]

    The development follows crates/wraith-xdp/src/xdp_filter.c function by
    function.  A received frame is the byte sequence between [ctx->data] and
    [ctx->data_end]; pointers are addresses in [Z]; a load outside the frame
    is a fault ([None]), which is what the in-kernel verifier forbids.  The
    per-CPU statistics array is a list of 64-bit slots and the AF_XDP socket
    map is a finite map read through the host's redirect helper. *)

From Stdlib Require Import ZArith Lia Bool List.
From Stdlib.Strings Require Import Byte.
From stdpp Require Import base option list gmap.

Local Open Scope Z_scope.

(** ** Constants of the included kernel headers *)

(* linux/if_ether.h, linux/in.h *)
Definition ETH_P_IP : Z := 0x0800.
Definition ETH_P_IPV6 : Z := 0x86DD.
Definition IPPROTO_UDP : Z := 17.

(* linux/bpf.h: enum xdp_action *)
Definition XDP_ABORTED : Z := 0.
Definition XDP_DROP : Z := 1.
Definition XDP_PASS : Z := 2.
Definition XDP_TX : Z := 3.
Definition XDP_REDIRECT : Z := 4.

(* sizeof of the packed header structs *)
Definition sizeof_ethhdr : Z := 14.
Definition sizeof_iphdr : Z := 20.
Definition sizeof_ipv6hdr : Z := 40.
Definition sizeof_udphdr : Z := 8.

(* offsetof of the fields the filter reads *)
Definition off_eth_h_proto : Z := 12.
Definition off_ip_frag_off : Z := 6.
Definition off_ip_protocol : Z := 9.
Definition off_ipv6_nexthdr : Z := 6.
Definition off_udp_dest : Z := 2.

(** ** Constants of the program *)

Definition WRAITH_PORT_MIN : Z := 40000.
Definition WRAITH_PORT_MAX : Z := 50000.
Definition MAX_SOCKETS : Z := 64.

(* enum stat_type *)
Definition STAT_RX_PACKETS : Z := 0.
Definition STAT_RX_BYTES : Z := 1.
Definition STAT_DROPPED : Z := 2.
Definition STAT_REDIRECTED : Z := 3.

(* max_entries of stats_map *)
Definition STATS_ENTRIES : nat := 4.

(** ** Machine integers *)

Definition wrap64 (x : Z) : Z := x mod 2 ^ 64.
Definition wrap16 (x : Z) : Z := x mod 2 ^ 16.

(** ** The execution context and packet memory *)

Record xdp_md := mk_xdp_md {
  data : Z;                 (* address of the first byte of the frame *)
  frame : list byte;        (* the bytes in [data, data_end) *)
  rx_queue_index : Z        (* __u32 *)
}.

Definition frame_len (ctx : xdp_md) : Z := Z.of_nat (length (frame ctx)).

Definition data_end (ctx : xdp_md) : Z := data ctx + frame_len ctx.

Definition byte_val (b : byte) : Z := Z.of_N (Byte.to_N b).

(* One-byte load through a packet pointer; [None] is an out-of-bounds access. *)
Definition load_u8 (ctx : xdp_md) (addr : Z) : option Z :=
  if (data ctx <=? addr) && (addr <? data_end ctx)
  then byte_val <$> frame ctx !! Z.to_nat (addr - data ctx)
  else None.

(* Byte order of the machine the program is compiled for. *)
Inductive byte_order := LittleEndian | BigEndian.

(* The value a __u16 lvalue has when its two bytes in memory are b0, b1. *)
Definition host_u16 (host : byte_order) (b0 b1 : Z) : Z :=
  match host with
  | LittleEndian => Z.lor b0 (Z.shiftl b1 8)
  | BigEndian => Z.lor (Z.shiftl b0 8) b1
  end.

(* bpf/bpf_endian.h: ___bpf_swab16 *)
Definition bpf_swab16 (x : Z) : Z :=
  wrap16 (Z.lor (Z.shiftl (Z.land x 0x00ff) 8) (Z.shiftr (Z.land x 0xff00) 8)).

(* struct iphdr / struct ipv6hdr bit-fields of the first header byte: the
   declaration order of the two nibbles is swapped with the byte order, so
   that [version] is always the high nibble and [ihl] the low one. *)
Definition hdr_version (byte0 : Z) : Z := Z.shiftr byte0 4.
Definition hdr_ihl (byte0 : Z) : Z := Z.land byte0 0xF.

(** ** Statistics *)

(* update_stat: the slot lookup may fail, in which case nothing happens. *)
Definition update_stat (type : Z) (delta : Z) (stats_map : list Z) : list Z :=
  match stats_map !! Z.to_nat type with
  | Some value => <[Z.to_nat type := wrap64 (value + delta)]> stats_map
  | None => stats_map
  end.

(** ** The filter *)

Section Filter.

(* Byte order of the host. *)
Variable host : byte_order.

(* The host's helper [bpf_redirect_map(&xsks_map, key, flags)]: its result,
   as stored in [int ret], for a given content of the socket map. *)
Variable bpf_redirect_map : gmap Z Z -> Z -> Z -> Z.

Definition load_u16 (ctx : xdp_md) (addr : Z) : option Z :=
  b0 ← load_u8 ctx addr;
  b1 ← load_u8 ctx (addr + 1);
  Some (host_u16 host b0 b1).

Definition bpf_htons (x : Z) : Z :=
  match host with
  | LittleEndian => bpf_swab16 x
  | BigEndian => wrap16 x
  end.

Definition bpf_ntohs (x : Z) : Z :=
  match host with
  | LittleEndian => bpf_swab16 x
  | BigEndian => wrap16 x
  end.

(* Returns (ret, data, data_end, ethhdr). *)
Definition parse_ethhdr (ctx : xdp_md) : Z * Z * Z * Z :=
  let data := data ctx in
  let data_end := data_end ctx in
  let ethhdr := data in
  if data + sizeof_ethhdr >? data_end then (-1, data, data_end, ethhdr)
  else (0, data, data_end, ethhdr).

(* Returns (ret, iphdr); [ctx] stands for the packet memory. *)
Definition parse_iphdr (ctx : xdp_md) (data data_end : Z) : option (Z * Z) :=
  let iphdr := data + sizeof_ethhdr in
  if iphdr + sizeof_iphdr >? data_end then Some (-1, iphdr) else
  byte0 ← load_u8 ctx iphdr;
  if negb (hdr_version byte0 =? 4) then Some (-1, iphdr) else
  frag_off ← load_u16 ctx (iphdr + off_ip_frag_off);
  if negb (Z.land frag_off (bpf_htons 0x1FFF) =? 0) then Some (-1, iphdr) else
  Some (0, iphdr).

Definition parse_ipv6hdr (ctx : xdp_md) (data data_end : Z) : option (Z * Z) :=
  let ipv6hdr := data + sizeof_ethhdr in
  if ipv6hdr + sizeof_ipv6hdr >? data_end then Some (-1, ipv6hdr) else
  byte0 ← load_u8 ctx ipv6hdr;
  if negb (hdr_version byte0 =? 6) then Some (-1, ipv6hdr) else
  Some (0, ipv6hdr).

(* Returns (ret, udphdr); [*udphdr] is left unassigned ([None]) when the
   protocol test fails. *)
Definition parse_udphdr_v4 (ctx : xdp_md) (data data_end iphdr : Z)
  : option (Z * option Z) :=
  protocol ← load_u8 ctx (iphdr + off_ip_protocol);
  if negb (protocol =? IPPROTO_UDP) then Some (-1, None) else
  byte0 ← load_u8 ctx iphdr;
  let udphdr := iphdr + hdr_ihl byte0 * 4 in
  if udphdr + sizeof_udphdr >? data_end then Some (-1, Some udphdr) else
  Some (0, Some udphdr).

Definition parse_udphdr_v6 (ctx : xdp_md) (data data_end ipv6hdr : Z)
  : option (Z * option Z) :=
  nexthdr ← load_u8 ctx (ipv6hdr + off_ipv6_nexthdr);
  if negb (nexthdr =? IPPROTO_UDP) then Some (-1, None) else
  let udphdr := ipv6hdr + sizeof_ipv6hdr in
  if udphdr + sizeof_udphdr >? data_end then Some (-1, Some udphdr) else
  Some (0, Some udphdr).

Definition is_wraith_port (dport : Z) : bool :=
  (dport >=? WRAITH_PORT_MIN) && (dport <=? WRAITH_PORT_MAX).

(* The program: the returned action and the statistics array afterwards. *)
Definition xdp_wraith_filter (ctx : xdp_md) (xsks_map : gmap Z Z)
    (stats_map : list Z) : option (Z * list Z) :=
  let pass := Some (XDP_PASS, stats_map) in
  let '(r, data, data_end, eth) := parse_ethhdr ctx in
  if r <? 0 then pass else
  h_proto ← load_u16 ctx (eth + off_eth_h_proto);
  let eth_proto := bpf_ntohs h_proto in
  if eth_proto =? ETH_P_IP then
    '(r, ip) ← parse_iphdr ctx data data_end;
    if r <? 0 then pass else
    '(r, udp) ← parse_udphdr_v4 ctx data data_end ip;
    if r <? 0 then pass else
    udp ← udp;
    dest ← load_u16 ctx (udp + off_udp_dest);
    let dport := bpf_ntohs dest in
    if negb (is_wraith_port dport) then pass else
    let stats_map := update_stat STAT_RX_PACKETS 1 stats_map in
    let stats_map := update_stat STAT_RX_BYTES (data_end - data) stats_map in
    let queue_id := rx_queue_index ctx in
    let ret := bpf_redirect_map xsks_map queue_id 0 in
    if ret =? XDP_REDIRECT then
      Some (XDP_REDIRECT, update_stat STAT_REDIRECTED 1 stats_map)
    else
      Some (XDP_DROP, update_stat STAT_DROPPED 1 stats_map)
  else if eth_proto =? ETH_P_IPV6 then
    '(r, ipv6) ← parse_ipv6hdr ctx data data_end;
    if r <? 0 then pass else
    '(r, udp) ← parse_udphdr_v6 ctx data data_end ipv6;
    if r <? 0 then pass else
    udp ← udp;
    dest ← load_u16 ctx (udp + off_udp_dest);
    let dport := bpf_ntohs dest in
    if negb (is_wraith_port dport) then pass else
    let stats_map := update_stat STAT_RX_PACKETS 1 stats_map in
    let stats_map := update_stat STAT_RX_BYTES (data_end - data) stats_map in
    let queue_id := rx_queue_index ctx in
    let ret := bpf_redirect_map xsks_map queue_id 0 in
    if ret =? XDP_REDIRECT then
      Some (XDP_REDIRECT, update_stat STAT_REDIRECTED 1 stats_map)
    else
      Some (XDP_DROP, update_stat STAT_DROPPED 1 stats_map)
  else pass.

End Filter.

(** ** Byte-level view of a frame

    The fields of the headers as they lie in the frame, independently of the
    byte order of the host.  These are used to state what the filter does. *)

Definition frame_byte (ctx : xdp_md) (off : Z) : Z :=
  if (0 <=? off) && (off <? frame_len ctx)
  then default 0 (byte_val <$> frame ctx !! Z.to_nat off)
  else 0.

(* A 16-bit field in network byte order. *)
Definition be16 (ctx : xdp_md) (off : Z) : Z :=
  256 * frame_byte ctx off + frame_byte ctx (off + 1).

Definition ether_type (ctx : xdp_md) : Z := be16 ctx 12.
Definition ip_version (ctx : xdp_md) : Z := frame_byte ctx 14 / 16.
Definition ip4_ihl (ctx : xdp_md) : Z := frame_byte ctx 14 mod 16.
Definition ip4_frag_field (ctx : xdp_md) : Z := be16 ctx 20.
Definition ip4_frag_offset (ctx : xdp_md) : Z := Z.land (ip4_frag_field ctx) 0x1FFF.
Definition ip4_more_fragments (ctx : xdp_md) : bool := Z.testbit (ip4_frag_field ctx) 13.
Definition ip4_dont_fragment (ctx : xdp_md) : bool := Z.testbit (ip4_frag_field ctx) 14.
Definition ip4_protocol (ctx : xdp_md) : Z := frame_byte ctx 23.
Definition ip6_next_header (ctx : xdp_md) : Z := frame_byte ctx 20.
Definition udp4_offset (ctx : xdp_md) : Z := 14 + 4 * ip4_ihl ctx.
Definition udp4_dport (ctx : xdp_md) : Z := be16 ctx (udp4_offset ctx + 2).
Definition udp6_offset : Z := 54.
Definition udp6_dport (ctx : xdp_md) : Z := be16 ctx (udp6_offset + 2).

Definition in_wraith_range (p : Z) : bool := (40000 <=? p) && (p <=? 50000).

(* The frames whose IPv4 branch reaches the port check. *)
Definition accepts_udp4 (ctx : xdp_md) : bool :=
  (34 <=? frame_len ctx) && (ether_type ctx =? 0x0800) &&
  (ip_version ctx =? 4) && (ip4_frag_offset ctx =? 0) &&
  (ip4_protocol ctx =? 17) && (udp4_offset ctx + 8 <=? frame_len ctx).

(* The frames whose IPv6 branch reaches the port check. *)
Definition accepts_udp6 (ctx : xdp_md) : bool :=
  (54 <=? frame_len ctx) && (ether_type ctx =? 0x86DD) &&
  (ip_version ctx =? 6) && (ip6_next_header ctx =? 17) &&
  (udp6_offset + 8 <=? frame_len ctx).

(* The frames that match all WRAITH selection criteria. *)
Definition wraith_match (ctx : xdp_md) : bool :=
  (accepts_udp4 ctx && in_wraith_range (udp4_dport ctx)) ||
  (accepts_udp6 ctx && in_wraith_range (udp6_dport ctx)).

(* What the filter does with a matching frame: account, then dispatch on the
   result [ret] of the redirect helper. *)
Definition account (len : Z) (stats_map : list Z) : list Z :=
  update_stat STAT_RX_BYTES len (update_stat STAT_RX_PACKETS 1 stats_map).

Definition dispatch (ret : Z) (stats_map : list Z) : Z * list Z :=
  if ret =? XDP_REDIRECT then (XDP_REDIRECT, update_stat STAT_REDIRECTED 1 stats_map)
  else (XDP_DROP, update_stat STAT_DROPPED 1 stats_map).

(** ** Reading the statistics array *)

Definition stat (stats_map : list Z) (type : Z) : Z :=
  default 0 (stats_map !! Z.to_nat type).

(* The array as the loader creates it: all [max_entries] slots exist. *)
Definition stats_provisioned (stats_map : list Z) : Prop :=
  length stats_map = STATS_ENTRIES /\ Forall (fun v => 0 <= v < 2 ^ 64) stats_map.

(* How one slot may differ before and after one run of the program on a frame
   of [len] bytes. *)
Inductive slot_step (len : Z) : option Z -> option Z -> Prop :=
  | slot_absent : slot_step len None None
  | slot_kept v : slot_step len (Some v) (Some v)
  | slot_added v d : d = 1 \/ d = len -> slot_step len (Some v) (Some (wrap64 (v + d))).

(** ** Well-formed UDP frames and parse failures *)

(* An unfragmented IPv4/UDP frame with all headers inside the buffer. *)
Definition well_formed_udp4 (ctx : xdp_md) : bool :=
  accepts_udp4 ctx && (5 <=? ip4_ihl ctx) && negb (ip4_more_fragments ctx).

(* An IPv6/UDP frame with all headers inside the buffer. *)
Definition well_formed_udp6 (ctx : xdp_md) : bool := accepts_udp6 ctx.

(* The ways a frame can fail a parse step or the port check. *)
Inductive parse_failure (ctx : xdp_md) : Prop :=
  | short_ethernet : frame_len ctx < 14 -> parse_failure ctx
  | other_ether_type :
      ether_type ctx <> 0x0800 -> ether_type ctx <> 0x86DD -> parse_failure ctx
  | truncated_ipv4 : ether_type ctx = 0x0800 -> frame_len ctx < 34 -> parse_failure ctx
  | ipv4_wrong_version : ether_type ctx = 0x0800 -> ip_version ctx <> 4 -> parse_failure ctx
  | ipv4_fragment_offset :
      ether_type ctx = 0x0800 -> ip4_frag_offset ctx <> 0 -> parse_failure ctx
  | ipv4_not_udp : ether_type ctx = 0x0800 -> ip4_protocol ctx <> 17 -> parse_failure ctx
  | truncated_udp4 :
      ether_type ctx = 0x0800 -> frame_len ctx < udp4_offset ctx + 8 -> parse_failure ctx
  | udp4_port_out_of_range :
      ether_type ctx = 0x0800 -> in_wraith_range (udp4_dport ctx) = false ->
      parse_failure ctx
  | truncated_ipv6 : ether_type ctx = 0x86DD -> frame_len ctx < 54 -> parse_failure ctx
  | ipv6_wrong_version : ether_type ctx = 0x86DD -> ip_version ctx <> 6 -> parse_failure ctx
  | ipv6_not_udp : ether_type ctx = 0x86DD -> ip6_next_header ctx <> 17 -> parse_failure ctx
  | truncated_udp6 :
      ether_type ctx = 0x86DD -> frame_len ctx < udp6_offset + 8 -> parse_failure ctx
  | udp6_port_out_of_range :
      ether_type ctx = 0x86DD -> in_wraith_range (udp6_dport ctx) = false ->
      parse_failure ctx.

(* The protocol and header-length fields of an IPv4 header at [iphdr]. *)
Definition protocol_at (ctx : xdp_md) (iphdr : Z) : Z :=
  frame_byte ctx (iphdr - data ctx + 9).

Definition ihl_at (ctx : xdp_md) (iphdr : Z) : Z :=
  frame_byte ctx (iphdr - data ctx) mod 16.

(** ** A sequence of invocations on one execution context *)

Section Run.

Variable host : byte_order.
Variable bpf_redirect_map : gmap Z Z -> Z -> Z -> Z.

(* The program run on each frame in turn, with the socket map as it is at
   that time; the statistics array is carried from one run to the next. *)
Fixpoint run_filter (invs : list (xdp_md * gmap Z Z)) (stats_map : list Z)
  : option (list Z * list Z) :=
  match invs with
  | [] => Some ([], stats_map)
  | (ctx, xsks_map) :: rest =>
      '(act, stats_map) ← xdp_wraith_filter host bpf_redirect_map ctx xsks_map stats_map;
      '(acts, stats_map) ← run_filter rest stats_map;
      Some (act :: acts, stats_map)
  end.

End Run.

Fixpoint count_action (a : Z) (acts : list Z) : Z :=
  match acts with
  | [] => 0
  | x :: rest => (if x =? a then 1 else 0) + count_action a rest
  end.

Fixpoint total_frame_len (invs : list (xdp_md * gmap Z Z)) : Z :=
  match invs with
  | [] => 0
  | (ctx, _) :: rest => frame_len ctx + total_frame_len rest
  end.

(** ** Concrete frames and scenarios *)

Definition all_bytes : list Z := map Z.of_nat (seq 0 256).

Definition byte_of_Z (z : Z) : byte :=
  match Byte.of_N (Z.to_N z) with Some b => b | None => x00 end.

Definition bytes (l : list Z) : list byte := map byte_of_Z l.

Definition eth_bytes (ether_hi ether_lo : Z) : list Z :=
  [0x02; 0; 0; 0; 0; 0x01; 0x02; 0; 0; 0; 0; 0x02; ether_hi; ether_lo].

(* Ethernet + IPv4 + UDP + 18 bytes of payload = 60 bytes. *)
Definition udp4_bytes (vihl frag_hi frag_lo proto dport : Z) : list byte :=
  bytes (eth_bytes 0x08 0x00
      ++ [vihl; 0x00; 0x00; 0x2e; 0x00; 0x01; frag_hi; frag_lo;
          0x40; proto; 0x00; 0x00; 192; 168; 0; 1; 192; 168; 156; 64]
      ++ [0x30; 0x39; dport / 256; dport mod 256; 0x00; 0x1a; 0x00; 0x00]
      ++ repeat 0 18).

(* Ethernet + IPv6 + UDP + 8 bytes of payload = 70 bytes. *)
Definition udp6_bytes (nexthdr dport : Z) : list byte :=
  bytes (eth_bytes 0x86 0xDD
      ++ [0x60; 0; 0; 0; 0x00; 0x10; nexthdr; 0x40]
      ++ repeat 0 15 ++ [1] ++ repeat 0 15 ++ [2]
      ++ [0x30; 0x39; dport / 256; dport mod 256; 0x00; 0x10; 0x00; 0x00]
      ++ repeat 0 8).

(* A reference behaviour of the host's redirect helper, for the scenarios
   below: a queue with a registered socket is redirected, a miss gives back
   the action bits of [flags]. *)
Definition xsk_redirect (xsks_map : gmap Z Z) (key flags : Z) : Z :=
  match xsks_map !! key with
  | Some _ => XDP_REDIRECT
  | None => Z.land flags 3
  end.

(* Queue 3 has a socket registered. *)
Definition xsks_queue3 : gmap Z Z := {[ 3 := 7 ]}.

Definition zero_stats : list Z := [0; 0; 0; 0].

(* The 60-byte frame of the end-to-end scenarios: DF set, not fragmented,
   received on queue 3. *)
Definition ctx60 (dport : Z) : xdp_md :=
  mk_xdp_md 0x1000 (udp4_bytes 0x45 0x40 0x00 17 dport) 3.

Definition ctx6 (dport : Z) : xdp_md :=
  mk_xdp_md 0x2000 (udp6_bytes 17 dport) 3.

(* A first fragment: "more fragments" set, fragment offset 0. *)
Definition ctx_first_fragment : xdp_md :=
  mk_xdp_md 0x1000 (udp4_bytes 0x45 0x20 0x00 17 40000) 3.

(* Header length field 4: the "UDP header" starts 16 bytes into the IPv4
   header, so that its destination port is the low half of the destination
   address 192.168.156.64. *)
Definition ctx_short_ihl : xdp_md :=
  mk_xdp_md 0x1000 (udp4_bytes 0x44 0x00 0x00 17 8080) 3.

(* A TCP segment whose bytes at the UDP port position read 41000. *)
Definition ctx_tcp : xdp_md :=
  mk_xdp_md 0x1000 (udp4_bytes 0x45 0x40 0x00 6 41000) 3.

(* A slot about to wrap around. *)
Definition stats_at_limit : list Z := [2 ^ 64 - 1; 0; 0; 0].

(* Three matching frames, the second on a queue without a socket. *)
Definition three_frames : list (xdp_md * gmap Z Z) :=
  [(ctx60 41000, xsks_queue3); (ctx6 45000, ∅); (ctx60 50000, xsks_queue3)].

(** ** Definitions for the properties of the single steps *)

(* The next-header field of an IPv6 header at [ipv6hdr]. *)
Definition nexthdr_at (ctx : xdp_md) (ipv6hdr : Z) : Z :=
  frame_byte ctx (ipv6hdr - data ctx + 6).

(* The frame offsets whose bytes the program looks at: the ether-type, the
   first byte of the L3 header and byte 20 (first byte of the IPv4 fragment
   field, IPv6 next header); then, for IPv4, the rest of the fragment field,
   the protocol and the destination port after a header of the length the
   frame announces; otherwise the destination port after an IPv6 header. *)
Definition inspected_offsets (ctx : xdp_md) : list Z :=
  [12; 13; 14; 20] ++
  (if ether_type ctx =? 0x0800
   then [21; 23; udp4_offset ctx + 2; udp4_offset ctx + 3]
   else [56; 57]).

(* The bytes of the frames of a sequence that match the selection criteria. *)
Fixpoint matched_frame_len (invs : list (xdp_md * gmap Z Z)) : Z :=
  match invs with
  | [] => 0
  | (ctx, _) :: rest =>
      (if wraith_match ctx then frame_len ctx else 0) + matched_frame_len rest
  end.

(* Matching and non-matching frames in turn. *)
Definition mixed_frames : list (xdp_md * gmap Z Z) :=
  [(ctx60 41000, xsks_queue3); (ctx_tcp, xsks_queue3); (ctx6 45000, ∅); (ctx60 8080, ∅)].

(* A 60-byte frame that agrees with [ctx60] at the inspected offsets and
   differs from it elsewhere. *)
Definition ctx60_other (dport : Z) : xdp_md :=
  mk_xdp_md 0x4000
    (bytes ([0xff; 0xff; 0xff; 0xff; 0xff; 0xff; 0x0a; 1; 2; 3; 4; 5; 0x08; 0x00]
         ++ [0x45; 0x10; 0x01; 0x00; 0xab; 0xcd; 0x40; 0x00;
             0x01; 17; 0x12; 0x34; 10; 0; 0; 1; 10; 0; 0; 2]
         ++ [0xc0; 0x00; dport / 256; dport mod 256; 0xff; 0xff; 0xde; 0xad]
         ++ repeat 0x55 18)) 3.

(** ** Bytes and 16-bit fields *)

Lemma byte_val_range (b : byte) : 0 <= byte_val b < 256.
Proof.
  unfold byte_val. pose proof (Byte.to_N_bounded b) as H. lia.
Qed.

Lemma frame_byte_range ctx off : 0 <= frame_byte ctx off < 256.
Proof.
  unfold frame_byte.
  destruct ((0 <=? off) && (off <? frame_len ctx)); [|lia].
  destruct (frame ctx !! Z.to_nat off) as [b|]; simpl; [apply byte_val_range | lia].
Qed.

Lemma in_all_bytes z : 0 <= z < 256 -> In z all_bytes.
Proof.
  intros Hz. unfold all_bytes. apply in_map_iff.
  exists (Z.to_nat z). split; [lia|]. apply in_seq. lia.
Qed.

(* A property of two bytes that holds on all 65536 pairs holds of any two. *)
Lemma forall_two_bytes (P : Z -> Z -> bool) :
  forallb (fun a => forallb (P a) all_bytes) all_bytes = true ->
  forall a b, 0 <= a < 256 -> 0 <= b < 256 -> P a b = true.
Proof.
  intros HP a b Ha Hb.
  rewrite forallb_forall in HP.
  specialize (HP a (in_all_bytes a Ha)).
  rewrite forallb_forall in HP.
  exact (HP b (in_all_bytes b Hb)).
Qed.

(* Converting the host's view of a big-endian field gives its value. *)
Lemma ntohs_host_u16 host b0 b1 :
  0 <= b0 < 256 -> 0 <= b1 < 256 ->
  bpf_ntohs host (host_u16 host b0 b1) = 256 * b0 + b1.
Proof.
  intros H0 H1. apply Z.eqb_eq. revert b0 b1 H0 H1.
  destruct host;
    apply (forall_two_bytes (fun a b => bpf_ntohs _ (host_u16 _ a b) =? 256 * a + b));
    vm_compute; reflexivity.
Qed.

(* The test of parse_iphdr looks at the 13 bits of the fragment offset. *)
Lemma frag_test_host_u16 host b0 b1 :
  0 <= b0 < 256 -> 0 <= b1 < 256 ->
  (Z.land (host_u16 host b0 b1) (bpf_htons host 0x1FFF) =? 0)
  = (Z.land (256 * b0 + b1) 0x1FFF =? 0).
Proof.
  intros H0 H1. apply eqb_true_iff. revert b0 b1 H0 H1.
  destruct host;
    apply (forall_two_bytes (fun a b =>
      eqb (Z.land (host_u16 _ a b) (bpf_htons _ 0x1FFF) =? 0)
          (Z.land (256 * a + b) 0x1FFF =? 0)));
    vm_compute; reflexivity.
Qed.

Lemma hdr_version_div b : hdr_version b = b / 16.
Proof. unfold hdr_version. rewrite Z.shiftr_div_pow2 by lia. reflexivity. Qed.

Lemma hdr_ihl_mod b : 0 <= b -> hdr_ihl b = b mod 16.
Proof. intros Hb. unfold hdr_ihl. change 0xF with (Z.ones 4). rewrite Z.land_ones by lia. reflexivity. Qed.

Lemma ip4_ihl_range ctx : 0 <= ip4_ihl ctx <= 15.
Proof. unfold ip4_ihl. pose proof (Z.mod_pos_bound (frame_byte ctx 14) 16). lia. Qed.

(** ** Loads *)

Lemma load_u8_in ctx off :
  0 <= off < frame_len ctx ->
  load_u8 ctx (data ctx + off) = Some (frame_byte ctx off).
Proof.
  intros Hoff. unfold load_u8, frame_byte, data_end.
  replace (data ctx + off - data ctx) with off by lia.
  assert (Hlt : (Z.to_nat off < length (frame ctx))%nat) by (unfold frame_len in Hoff; lia).
  destruct (lookup_lt_is_Some_2 _ _ Hlt) as [b Hb]. rewrite Hb. simpl.
  replace ((data ctx <=? data ctx + off) && (data ctx + off <? data ctx + frame_len ctx)) with true
    by (symmetry; apply andb_true_iff; split; [apply Z.leb_le | apply Z.ltb_lt]; lia).
  replace ((0 <=? off) && (off <? frame_len ctx)) with true
    by (symmetry; apply andb_true_iff; split; [apply Z.leb_le | apply Z.ltb_lt]; lia).
  reflexivity.
Qed.

Lemma load_u8_is_Some ctx addr :
  is_Some (load_u8 ctx addr) <-> data ctx <= addr < data_end ctx.
Proof.
  split.
  - intros [v Hv]. unfold load_u8 in Hv.
    destruct ((data ctx <=? addr) && (addr <? data_end ctx)) eqn:E; [|discriminate].
    apply andb_true_iff in E. destruct E as [E1 E2].
    apply Z.leb_le in E1. apply Z.ltb_lt in E2. lia.
  - intros H. replace addr with (data ctx + (addr - data ctx)) by lia.
    rewrite load_u8_in; [eauto|]. unfold data_end in H. lia.
Qed.

Lemma load_u16_in host ctx off :
  0 <= off -> off + 2 <= frame_len ctx ->
  load_u16 host ctx (data ctx + off)
  = Some (host_u16 host (frame_byte ctx off) (frame_byte ctx (off + 1))).
Proof.
  intros H0 H1. unfold load_u16.
  rewrite load_u8_in by lia. simpl.
  replace (data ctx + off + 1) with (data ctx + (off + 1)) by lia.
  rewrite load_u8_in by lia. reflexivity.
Qed.

Lemma ntohs_field host ctx off :
  bpf_ntohs host (host_u16 host (frame_byte ctx off) (frame_byte ctx (off + 1)))
  = be16 ctx off.
Proof. apply ntohs_host_u16; apply frame_byte_range. Qed.

(** ** What each parse step computes *)

Section ParseSteps.

Variable host : byte_order.

Lemma parse_ethhdr_spec ctx :
  parse_ethhdr ctx
  = (if 14 <=? frame_len ctx then 0 else -1, data ctx, data_end ctx, data ctx).
Proof.
  unfold parse_ethhdr, data_end, sizeof_ethhdr.
  rewrite Z.gtb_ltb.
  destruct (Z.ltb_spec (data ctx + frame_len ctx) (data ctx + 14));
    destruct (Z.leb_spec 14 (frame_len ctx)); try lia; reflexivity.
Qed.

Lemma load_eth_proto ctx :
  14 <= frame_len ctx ->
  bpf_ntohs host <$> load_u16 host ctx (data ctx + off_eth_h_proto)
  = Some (ether_type ctx).
Proof.
  intros Hlen. unfold off_eth_h_proto.
  rewrite load_u16_in by lia. simpl. rewrite ntohs_field. reflexivity.
Qed.

Lemma parse_iphdr_spec ctx :
  parse_iphdr host ctx (data ctx) (data_end ctx)
  = Some (if (34 <=? frame_len ctx) && (ip_version ctx =? 4)
             && (ip4_frag_offset ctx =? 0) then 0 else -1,
          data ctx + 14).
Proof.
  unfold parse_iphdr, data_end, sizeof_ethhdr, sizeof_iphdr, off_ip_frag_off.
  rewrite Z.gtb_ltb.
  destruct (Z.ltb_spec (data ctx + frame_len ctx) (data ctx + 14 + 20));
    destruct (Z.leb_spec 34 (frame_len ctx)); try lia; [reflexivity|].
  rewrite load_u8_in by lia. simpl.
  rewrite hdr_version_div. fold (ip_version ctx).
  destruct (ip_version ctx =? 4); simpl; [|reflexivity].
  replace (data ctx + 14 + 6) with (data ctx + 20) by lia.
  rewrite load_u16_in by lia. simpl.
  rewrite frag_test_host_u16 by apply frame_byte_range.
  change (256 * frame_byte ctx 20 + frame_byte ctx (20 + 1)) with (ip4_frag_field ctx).
  fold (ip4_frag_offset ctx).
  destruct (ip4_frag_offset ctx =? 0); reflexivity.
Qed.

Lemma parse_ipv6hdr_spec ctx :
  parse_ipv6hdr ctx (data ctx) (data_end ctx)
  = Some (if (54 <=? frame_len ctx) && (ip_version ctx =? 6) then 0 else -1,
          data ctx + 14).
Proof.
  unfold parse_ipv6hdr, data_end, sizeof_ethhdr, sizeof_ipv6hdr.
  rewrite Z.gtb_ltb.
  destruct (Z.ltb_spec (data ctx + frame_len ctx) (data ctx + 14 + 40));
    destruct (Z.leb_spec 54 (frame_len ctx)); try lia; [reflexivity|].
  rewrite load_u8_in by lia. simpl.
  rewrite hdr_version_div. fold (ip_version ctx).
  destruct (ip_version ctx =? 6); reflexivity.
Qed.

Lemma parse_udphdr_v4_spec ctx :
  34 <= frame_len ctx ->
  parse_udphdr_v4 ctx (data ctx) (data_end ctx) (data ctx + 14)
  = Some (if ip4_protocol ctx =? 17
          then (if udp4_offset ctx + 8 <=? frame_len ctx then 0 else -1,
                Some (data ctx + udp4_offset ctx))
          else (-1, None)).
Proof.
  intros Hlen.
  unfold parse_udphdr_v4, data_end, off_ip_protocol, IPPROTO_UDP, sizeof_udphdr.
  replace (data ctx + 14 + 9) with (data ctx + 23) by lia.
  rewrite !load_u8_in by lia. simpl. fold (ip4_protocol ctx).
  destruct (ip4_protocol ctx =? 17); simpl; [|reflexivity].
  rewrite hdr_ihl_mod by apply frame_byte_range. fold (ip4_ihl ctx).
  replace (data ctx + 14 + ip4_ihl ctx * 4) with (data ctx + udp4_offset ctx)
    by (unfold udp4_offset; lia).
  rewrite Z.gtb_ltb.
  destruct (Z.ltb_spec (data ctx + frame_len ctx) (data ctx + udp4_offset ctx + 8));
    destruct (Z.leb_spec (udp4_offset ctx + 8) (frame_len ctx)); try lia; reflexivity.
Qed.

Lemma parse_udphdr_v6_spec ctx :
  54 <= frame_len ctx ->
  parse_udphdr_v6 ctx (data ctx) (data_end ctx) (data ctx + 14)
  = Some (if ip6_next_header ctx =? 17
          then (if udp6_offset + 8 <=? frame_len ctx then 0 else -1,
                Some (data ctx + udp6_offset))
          else (-1, None)).
Proof.
  intros Hlen.
  unfold parse_udphdr_v6, data_end, off_ipv6_nexthdr, IPPROTO_UDP, sizeof_udphdr,
    sizeof_ipv6hdr, udp6_offset.
  replace (data ctx + 14 + 6) with (data ctx + 20) by lia.
  rewrite !load_u8_in by lia. simpl. fold (ip6_next_header ctx).
  destruct (ip6_next_header ctx =? 17); simpl; [|reflexivity].
  replace (data ctx + 14 + 40) with (data ctx + 54) by lia.
  rewrite Z.gtb_ltb.
  destruct (Z.ltb_spec (data ctx + frame_len ctx) (data ctx + 54 + 8));
    destruct (Z.leb_spec (54 + 8) (frame_len ctx)); try lia; reflexivity.
Qed.

Lemma load_dport ctx off :
  0 <= off -> off + 8 <= frame_len ctx ->
  bpf_ntohs host <$> load_u16 host ctx (data ctx + off + off_udp_dest)
  = Some (be16 ctx (off + 2)).
Proof.
  intros H0 H1. unfold off_udp_dest.
  replace (data ctx + off + 2) with (data ctx + (off + 2)) by lia.
  rewrite load_u16_in by lia. simpl. rewrite ntohs_field. reflexivity.
Qed.

Lemma is_wraith_port_range p : is_wraith_port p = in_wraith_range p.
Proof.
  unfold is_wraith_port, in_wraith_range, WRAITH_PORT_MIN, WRAITH_PORT_MAX.
  rewrite Z.geb_leb. reflexivity.
Qed.

End ParseSteps.

(** ** The program as a function of the frame *)

Lemma dispatch_Some ret st :
  (if ret =? XDP_REDIRECT
   then Some (XDP_REDIRECT, update_stat STAT_REDIRECTED 1 st)
   else Some (XDP_DROP, update_stat STAT_DROPPED 1 st))
  = Some (dispatch ret st).
Proof. unfold dispatch. destruct (ret =? XDP_REDIRECT); reflexivity. Qed.

Lemma filter_spec host helper ctx xsks st :
  xdp_wraith_filter host helper ctx xsks st
  = Some (if wraith_match ctx
          then dispatch (helper xsks (rx_queue_index ctx) 0) (account (frame_len ctx) st)
          else (XDP_PASS, st)).
Proof.
  unfold xdp_wraith_filter. rewrite parse_ethhdr_spec.
  rewrite !dispatch_Some.
  replace (data_end ctx - data ctx) with (frame_len ctx) by (unfold data_end; lia).
  fold (account (frame_len ctx) st).
  unfold wraith_match, accepts_udp4, accepts_udp6, ETH_P_IP, ETH_P_IPV6.
  destruct (Z.leb_spec 14 (frame_len ctx)) as [H14|H14].
  2:{ destruct (Z.leb_spec 34 (frame_len ctx)); [lia|].
      destruct (Z.leb_spec 54 (frame_len ctx)); [lia|]. reflexivity. }
  change (0 <? 0) with false. cbv iota beta.
  unfold off_eth_h_proto. rewrite load_u16_in by lia.
  cbn [mbind option_bind]. rewrite ntohs_field. fold (ether_type ctx).
  destruct (Z.eqb_spec (ether_type ctx) 0x0800) as [E4|E4].
  - replace (ether_type ctx =? 0x86DD) with false by (rewrite E4; reflexivity).
    rewrite !andb_false_r, orb_false_r.
    rewrite parse_iphdr_spec. cbn [mbind option_bind].
    destruct (Z.leb_spec 34 (frame_len ctx)) as [H34|H34]; [|reflexivity].
    destruct (ip_version ctx =? 4); [|reflexivity].
    destruct (ip4_frag_offset ctx =? 0); [|reflexivity].
    cbn [andb]. change (0 <? 0) with false. cbv iota.
    rewrite parse_udphdr_v4_spec by lia. cbn [mbind option_bind].
    destruct (ip4_protocol ctx =? 17); [|reflexivity].
    destruct (Z.leb_spec (udp4_offset ctx + 8) (frame_len ctx)) as [H8|H8]; [|reflexivity].
    change (0 <? 0) with false. cbv iota. cbn [mbind option_bind andb].
    pose proof (ip4_ihl_range ctx) as Hihl.
    unfold off_udp_dest.
    replace (data ctx + udp4_offset ctx + 2) with (data ctx + (udp4_offset ctx + 2)) by lia.
    rewrite load_u16_in by (unfold udp4_offset in *; lia).
    cbn [mbind option_bind]. rewrite ntohs_field. fold (udp4_dport ctx).
    rewrite is_wraith_port_range.
    destruct (in_wraith_range (udp4_dport ctx)); reflexivity.
  - cbn [andb orb]. rewrite !andb_false_r. cbn [orb].
    destruct (Z.eqb_spec (ether_type ctx) 0x86DD) as [E6|E6].
    2:{ rewrite !andb_false_r. reflexivity. }
    rewrite parse_ipv6hdr_spec. cbn [mbind option_bind].
    destruct (Z.leb_spec 54 (frame_len ctx)) as [H54|H54]; [|reflexivity].
    destruct (ip_version ctx =? 6); [|reflexivity].
    cbn [andb]. change (0 <? 0) with false. cbv iota.
    rewrite parse_udphdr_v6_spec by lia. cbn [mbind option_bind].
    destruct (ip6_next_header ctx =? 17); [|reflexivity].
    destruct (Z.leb_spec (udp6_offset + 8) (frame_len ctx)) as [H8|H8]; [|reflexivity].
    change (0 <? 0) with false. cbv iota. cbn [mbind option_bind andb].
    unfold off_udp_dest.
    replace (data ctx + udp6_offset + 2) with (data ctx + (udp6_offset + 2)) by lia.
    rewrite load_u16_in by (unfold udp6_offset in *; lia).
    cbn [mbind option_bind]. rewrite ntohs_field. fold (udp6_dport ctx).
    rewrite is_wraith_port_range.
    destruct (in_wraith_range (udp6_dport ctx)); reflexivity.
Qed.

(** ** Statistics updates *)

Lemma length_update_stat type delta (st : list Z) :
  length (update_stat type delta st) = length st.
Proof.
  unfold update_stat. destruct (st !! Z.to_nat type); [apply length_insert | reflexivity].
Qed.

Lemma update_stat_absent type delta (st : list Z) :
  st !! Z.to_nat type = None -> update_stat type delta st = st.
Proof. intros H. unfold update_stat. rewrite H. reflexivity. Qed.

Lemma lookup_update_stat_eq type delta (st : list Z) v :
  st !! Z.to_nat type = Some v ->
  update_stat type delta st !! Z.to_nat type = Some (wrap64 (v + delta)).
Proof.
  intros H. unfold update_stat. rewrite H.
  apply list_lookup_insert_eq. eapply lookup_lt_Some; eauto.
Qed.

Lemma lookup_update_stat_ne type delta (st : list Z) i :
  i <> Z.to_nat type -> update_stat type delta st !! i = st !! i.
Proof.
  intros H. unfold update_stat. destruct (st !! Z.to_nat type); [|reflexivity].
  apply list_lookup_insert_ne. congruence.
Qed.

Lemma stat_update_stat type type' delta (st : list Z) :
  0 <= type -> 0 <= type' -> (Z.to_nat type < length st)%nat ->
  stat (update_stat type delta st) type'
  = if type =? type' then wrap64 (stat st type + delta) else stat st type'.
Proof.
  intros H0 H1 Hlt. unfold stat.
  destruct (lookup_lt_is_Some_2 _ _ Hlt) as [v Hv].
  destruct (Z.eqb_spec type type') as [->|Hne].
  - rewrite (lookup_update_stat_eq _ _ _ _ Hv), Hv. reflexivity.
  - rewrite lookup_update_stat_ne by lia. reflexivity.
Qed.

Lemma slot_step_update_stat len type delta (st : list Z) i :
  delta = 1 \/ delta = len ->
  slot_step len (st !! i) (update_stat type delta st !! i).
Proof.
  intros Hd. destruct (decide (i = Z.to_nat type)) as [->|Hne].
  - destruct (st !! Z.to_nat type) as [v|] eqn:E.
    + rewrite (lookup_update_stat_eq _ _ _ _ E). constructor; assumption.
    + rewrite update_stat_absent, E by assumption. constructor.
  - rewrite lookup_update_stat_ne by assumption.
    destruct (st !! i); constructor.
Qed.

Lemma slot_step_dispatch len ret (st : list Z) i :
  slot_step len (st !! i) ((dispatch ret (account len st)).2 !! i).
Proof.
  assert (H1 : (1 : Z) = 1 \/ 1 = len) by (left; reflexivity).
  assert (Hl : len = 1 \/ len = len) by (right; reflexivity).
  unfold dispatch, account, STAT_RX_PACKETS, STAT_RX_BYTES, STAT_REDIRECTED, STAT_DROPPED.
  destruct (ret =? XDP_REDIRECT); cbn [snd];
    destruct i as [|[|[|[|i]]]];
    repeat (rewrite lookup_update_stat_ne by (simpl; lia));
    try (destruct (st !! _); constructor; fail).
  all: try (apply slot_step_update_stat; assumption).
  all: match goal with
       | |- slot_step _ (?s !! ?i) (update_stat ?t ?d ?s' !! ?i) =>
           replace (s !! i) with (s' !! i)
             by (repeat (rewrite lookup_update_stat_ne by (simpl; lia)); reflexivity);
           apply slot_step_update_stat; assumption
       end.
Qed.

Lemma frame_len_nonneg ctx : 0 <= frame_len ctx.
Proof. unfold frame_len. lia. Qed.

Lemma slot_step_monotone len v v' :
  slot_step len (Some v) (Some v') ->
  0 <= len -> 0 <= v -> v + Z.max 1 len < 2 ^ 64 -> v <= v'.
Proof.
  intros Hs Hlen Hv Hmax. inversion Hs as [|w|w d Hd]; subst; [lia|].
  unfold wrap64. rewrite Z.mod_small by lia. lia.
Qed.

(** ** Accounting of a matching frame *)

Lemma stat_account len (st : list Z) type :
  stats_provisioned st -> 0 <= type ->
  stat (account len st) type
  = if type =? STAT_RX_PACKETS then wrap64 (stat st type + 1)
    else if type =? STAT_RX_BYTES then wrap64 (stat st type + len)
    else stat st type.
Proof.
  intros [Hp _] Ht. unfold STATS_ENTRIES in Hp. unfold account.
  rewrite stat_update_stat
    by (rewrite ?length_update_stat; unfold STAT_RX_BYTES; simpl; lia).
  rewrite !stat_update_stat by (unfold STAT_RX_PACKETS, STAT_RX_BYTES; simpl; lia).
  unfold STAT_RX_PACKETS, STAT_RX_BYTES.
  destruct (Z.eqb_spec 1 type) as [<-|H1]; [reflexivity|].
  destruct (Z.eqb_spec 0 type) as [<-|H0]; [reflexivity|].
  destruct (Z.eqb_spec type 0); [lia|]. destruct (Z.eqb_spec type 1); [lia|]. reflexivity.
Qed.

Lemma length_account len (st : list Z) : length (account len st) = length st.
Proof. unfold account. rewrite !length_update_stat. reflexivity. Qed.

Lemma stat_dispatch ret (st : list Z) type :
  stats_provisioned st -> 0 <= type ->
  stat (dispatch ret st).2 type
  = if type =? (if ret =? XDP_REDIRECT then STAT_REDIRECTED else STAT_DROPPED)
    then wrap64 (stat st type + 1) else stat st type.
Proof.
  intros [Hp _] Ht. unfold STATS_ENTRIES in Hp. unfold dispatch.
  destruct (ret =? XDP_REDIRECT); cbn [snd];
    rewrite stat_update_stat by (unfold STAT_REDIRECTED, STAT_DROPPED; simpl; lia);
    rewrite (Z.eqb_sym type);
    match goal with |- context [?a =? type] => destruct (Z.eqb_spec a type) as [<-|] end;
    reflexivity.
Qed.

Lemma length_dispatch ret (st : list Z) : length (dispatch ret st).2 = length st.
Proof.
  unfold dispatch. destruct (ret =? XDP_REDIRECT); cbn [snd]; apply length_update_stat.
Qed.

Lemma dispatch_action ret st :
  (dispatch ret st).1 = if ret =? XDP_REDIRECT then XDP_REDIRECT else XDP_DROP.
Proof. unfold dispatch. destruct (ret =? XDP_REDIRECT); reflexivity. Qed.

(** ** Parse failures are exactly the frames that do not match *)

Lemma parse_failure_no_match ctx : parse_failure ctx -> wraith_match ctx = false.
Proof.
  intros H. unfold wraith_match, accepts_udp4, accepts_udp6.
  apply orb_false_iff.
  destruct H as [H|H H'|H H'|H H'|H H'|H H'|H H'|H H'|H H'|H H'|H H'|H H'|H H'];
    repeat match goal with
      | H : _ <> _ |- _ => apply Z.eqb_neq in H
      | H : _ < _ |- _ => apply Z.leb_gt in H
      end;
    try rewrite H; try rewrite H';
    repeat match goal with
      | |- context [?a <=? ?b] =>
          first [ rewrite (proj2 (Z.leb_gt a b)) by lia | destruct (a <=? b) ]
      end;
    cbn [andb orb];
    rewrite ?andb_false_r; split; try reflexivity;
    try (destruct (_ =? _); reflexivity).
Qed.

Lemma no_match_parse_failure ctx : wraith_match ctx = false -> parse_failure ctx.
Proof.
  unfold wraith_match, accepts_udp4, accepts_udp6. intros H.
  destruct (Z.eqb_spec (ether_type ctx) 0x0800) as [E4|E4].
  - destruct (Z.leb_spec 34 (frame_len ctx)); [|apply truncated_ipv4; assumption].
    destruct (Z.eqb_spec (ip_version ctx) 4); [|apply ipv4_wrong_version; assumption].
    destruct (Z.eqb_spec (ip4_frag_offset ctx) 0); [|apply ipv4_fragment_offset; assumption].
    destruct (Z.eqb_spec (ip4_protocol ctx) 17); [|apply ipv4_not_udp; assumption].
    destruct (Z.leb_spec (udp4_offset ctx + 8) (frame_len ctx));
      [|apply truncated_udp4; assumption].
    apply udp4_port_out_of_range; [assumption|].
    cbn [andb] in H. apply orb_false_iff in H. tauto.
  - destruct (Z.eqb_spec (ether_type ctx) 0x86DD) as [E6|E6];
      [|apply other_ether_type; assumption].
    rewrite !andb_false_r in H. cbn [andb orb] in H.
    destruct (Z.leb_spec 54 (frame_len ctx)); [|apply truncated_ipv6; assumption].
    destruct (Z.eqb_spec (ip_version ctx) 6); [|apply ipv6_wrong_version; assumption].
    destruct (Z.eqb_spec (ip6_next_header ctx) 17); [|apply ipv6_not_udp; assumption].
    destruct (Z.leb_spec (udp6_offset + 8) (frame_len ctx));
      [|apply truncated_udp6; assumption].
    apply udp6_port_out_of_range; assumption.
Qed.

Lemma wraith_match_frame ctx1 ctx2 :
  frame ctx1 = frame ctx2 -> wraith_match ctx1 = wraith_match ctx2.
Proof.
  intros H.
  unfold wraith_match, accepts_udp4, accepts_udp6, udp4_dport, udp6_dport, udp4_offset,
    ip4_ihl, ip4_protocol, ip6_next_header, ip4_frag_offset, ip4_frag_field, ip_version,
    ether_type, be16, frame_byte, frame_len.
  rewrite H. reflexivity.
Qed.

Lemma frame_len_frame ctx1 ctx2 : frame ctx1 = frame ctx2 -> frame_len ctx1 = frame_len ctx2.
Proof. intros H. unfold frame_len. rewrite H. reflexivity. Qed.

(** ** 64-bit slots *)

Lemma wrap64_range x : 0 <= wrap64 x < 2 ^ 64.
Proof. unfold wrap64. apply Z.mod_pos_bound. lia. Qed.

Lemma wrap64_small x : 0 <= x < 2 ^ 64 -> wrap64 x = x.
Proof. intros H. unfold wrap64. apply Z.mod_small. assumption. Qed.

Lemma wrap64_succ_ne v : 0 <= v < 2 ^ 64 -> wrap64 (v + 1) <> v.
Proof.
  intros Hv. unfold wrap64.
  destruct (Z.eq_dec v (2 ^ 64 - 1)) as [->|Hne]; [vm_compute; discriminate|].
  rewrite Z.mod_small by lia. lia.
Qed.

Lemma wrap64_add_l a b : wrap64 (wrap64 a + b) = wrap64 (a + b).
Proof. unfold wrap64. apply Zplus_mod_idemp_l. Qed.

Lemma stat_range (st : list Z) type : stats_provisioned st -> 0 <= stat st type < 2 ^ 64.
Proof.
  intros [_ Hr]. unfold stat.
  destruct (st !! Z.to_nat type) as [v|] eqn:E; simpl; [|lia].
  rewrite Forall_lookup in Hr. exact (Hr _ _ E).
Qed.

Lemma update_stat_provisioned type delta (st : list Z) :
  stats_provisioned st -> stats_provisioned (update_stat type delta st).
Proof.
  intros [Hl Hr]. split; [rewrite length_update_stat; assumption|].
  unfold update_stat. destruct (st !! Z.to_nat type); [|assumption].
  apply Forall_insert; [assumption | apply wrap64_range].
Qed.

Lemma account_provisioned len (st : list Z) :
  stats_provisioned st -> stats_provisioned (account len st).
Proof. intros H. unfold account. auto using update_stat_provisioned. Qed.

Lemma dispatch_provisioned ret (st : list Z) :
  stats_provisioned st -> stats_provisioned (dispatch ret st).2.
Proof.
  intros H. unfold dispatch.
  destruct (ret =? XDP_REDIRECT); cbn [snd]; auto using update_stat_provisioned.
Qed.

(** * Properties of the filter *)

Section Properties.

Variable host : byte_order.
Variable bpf_redirect_map : gmap Z Z -> Z -> Z -> Z.

(** C3. Every invocation, on any buffer and with any content of the socket
    map and of the statistics array, returns: no load faults, and the
    action is exactly one of XDP_PASS, XDP_DROP and XDP_REDIRECT. *)
Theorem exactly_one_disposition ctx xsks_map stats_map :
  exists act stats_map',
    xdp_wraith_filter host bpf_redirect_map ctx xsks_map stats_map = Some (act, stats_map') /\
    ((act = XDP_PASS /\ act <> XDP_DROP /\ act <> XDP_REDIRECT) \/
     (act = XDP_DROP /\ act <> XDP_PASS /\ act <> XDP_REDIRECT) \/
     (act = XDP_REDIRECT /\ act <> XDP_PASS /\ act <> XDP_DROP)).
Proof.
  rewrite filter_spec.
  destruct (wraith_match ctx).
  - unfold dispatch.
    destruct (_ =? XDP_REDIRECT); eexists _, _; (split; [reflexivity|]);
      unfold XDP_PASS, XDP_DROP, XDP_REDIRECT; lia.
  - eexists _, _. split; [reflexivity|].
    unfold XDP_PASS, XDP_DROP, XDP_REDIRECT; lia.
Qed.

(** A frame on which a parse step of the program or its port check fails
    (too short for an Ethernet header, ether-type neither IPv4 nor IPv6,
    truncated L3 or L4 header, wrong version nibble, nonzero IPv4 fragment
    offset, protocol or next header other than UDP, destination port out of
    range) is passed, and the statistics array is returned as it was.  The
    only fragments among these are the ones with a nonzero offset. *)
Theorem parse_failure_passes ctx xsks_map stats_map :
  parse_failure ctx ->
  xdp_wraith_filter host bpf_redirect_map ctx xsks_map stats_map = Some (XDP_PASS, stats_map).
Proof.
  intros H. rewrite filter_spec, (parse_failure_no_match _ H). reflexivity.
Qed.

(** C2. On a well-formed UDP frame (IPv4 not fragmented, or IPv6) whose
    headers lie inside the buffer, with destination port p read in network
    byte order, the action is XDP_REDIRECT or XDP_DROP exactly when
    40000 <= p <= 50000, and XDP_PASS exactly when p is outside. *)
Theorem udp_port_range_decides ctx xsks_map stats_map p :
  (well_formed_udp4 ctx = true /\ p = udp4_dport ctx) \/
  (well_formed_udp6 ctx = true /\ p = udp6_dport ctx) ->
  exists act stats_map',
    xdp_wraith_filter host bpf_redirect_map ctx xsks_map stats_map = Some (act, stats_map') /\
    ((act = XDP_REDIRECT \/ act = XDP_DROP) <-> 40000 <= p <= 50000) /\
    (act = XDP_PASS <-> ~ (40000 <= p <= 50000)).
Proof.
  intros H. rewrite filter_spec.
  assert (Hm : wraith_match ctx = in_wraith_range p).
  { unfold wraith_match.
    destruct H as [[Hw ->]|[Hw ->]].
    - unfold well_formed_udp4 in Hw. apply andb_true_iff in Hw as [Hw _].
      apply andb_true_iff in Hw as [Hw _]. rewrite Hw.
      assert (He : accepts_udp6 ctx = false).
      { unfold accepts_udp4 in Hw. unfold accepts_udp6.
        destruct (Z.eqb_spec (ether_type ctx) 0x0800) as [->|];
          [|rewrite !andb_false_r in Hw; discriminate].
        rewrite !andb_false_r. reflexivity. }
      rewrite He. cbn [andb orb]. apply orb_false_r.
    - unfold well_formed_udp6 in Hw. rewrite Hw.
      assert (He : accepts_udp4 ctx = false).
      { unfold accepts_udp6 in Hw. unfold accepts_udp4.
        destruct (Z.eqb_spec (ether_type ctx) 0x86DD) as [->|];
          [|rewrite !andb_false_r in Hw; discriminate].
        rewrite !andb_false_r. reflexivity. }
      rewrite He. reflexivity. }
  rewrite Hm. unfold in_wraith_range.
  destruct (Z.leb_spec 40000 p); destruct (Z.leb_spec p 50000); cbn [andb];
    try (eexists _, _; split; [reflexivity|];
         unfold XDP_PASS, XDP_REDIRECT, XDP_DROP; lia).
  unfold dispatch. destruct (_ =? XDP_REDIRECT);
    eexists _, _; (split; [reflexivity|]);
    unfold XDP_PASS, XDP_REDIRECT, XDP_DROP; lia.
Qed.

(** C8. Two invocations on the same frame bytes for which the redirect
    helper gives the same result return the same action, whatever the
    statistics arrays hold. *)
Theorem disposition_deterministic ctx1 ctx2 xsks1 xsks2 stats1 stats2 :
  frame ctx1 = frame ctx2 ->
  bpf_redirect_map xsks1 (rx_queue_index ctx1) 0
  = bpf_redirect_map xsks2 (rx_queue_index ctx2) 0 ->
  exists act,
    fst <$> xdp_wraith_filter host bpf_redirect_map ctx1 xsks1 stats1 = Some act /\
    fst <$> xdp_wraith_filter host bpf_redirect_map ctx2 xsks2 stats2 = Some act.
Proof.
  intros Hf Hr. rewrite !filter_spec, Hr, (wraith_match_frame _ _ Hf).
  destruct (wraith_match ctx2); cbn [fmap option_fmap option_map fst].
  - rewrite !dispatch_action. eauto.
  - eauto.
Qed.

(** C4. On a frame that matches the selection criteria, when the redirect
    helper returns anything but XDP_REDIRECT the action is XDP_DROP, the
    dropped counter is incremented by 1 and the redirected counter keeps
    its value. *)
Theorem redirect_failure_drops ctx xsks_map stats_map :
  wraith_match ctx = true ->
  bpf_redirect_map xsks_map (rx_queue_index ctx) 0 <> XDP_REDIRECT ->
  stats_provisioned stats_map ->
  exists stats_map',
    xdp_wraith_filter host bpf_redirect_map ctx xsks_map stats_map = Some (XDP_DROP, stats_map') /\
    stat stats_map' STAT_DROPPED = wrap64 (stat stats_map STAT_DROPPED + 1) /\
    stat stats_map' STAT_REDIRECTED = stat stats_map STAT_REDIRECTED.
Proof.
  intros Hm Hr Hp. rewrite filter_spec, Hm.
  pose proof (stat_dispatch (bpf_redirect_map xsks_map (rx_queue_index ctx) 0)
                (account (frame_len ctx) stats_map)) as Hd.
  pose proof (dispatch_action (bpf_redirect_map xsks_map (rx_queue_index ctx) 0)
                (account (frame_len ctx) stats_map)) as Ha.
  apply Z.eqb_neq in Hr. rewrite Hr in Hd, Ha.
  destruct (dispatch _ _) as [act st'] eqn:E. cbn [fst snd] in *. subst act.
  exists st'. split; [reflexivity|].
  rewrite !Hd by (auto using account_provisioned; unfold STAT_DROPPED, STAT_REDIRECTED; lia).
  rewrite !stat_account by (auto; unfold STAT_DROPPED, STAT_REDIRECTED; lia).
  split; reflexivity.
Qed.

(** C7. The IPv4 variant of the UDP parse succeeds exactly when the
    protocol field is UDP and 8 bytes fit between iphdr + 4 * ihl and the
    end of the buffer; the UDP header it yields is at iphdr + 4 * ihl for
    the header length field ihl of the packet; and when it fails on an
    IPv4 frame the program passes the frame. *)
Theorem parse_udphdr_v4_honours_ihl ctx d d_end iphdr :
  data ctx <= iphdr -> iphdr + sizeof_iphdr <= data_end ctx ->
  exists r udphdr,
    parse_udphdr_v4 ctx d d_end iphdr = Some (r, udphdr) /\
    (r = 0 \/ r = -1) /\
    (r = 0 <-> protocol_at ctx iphdr = IPPROTO_UDP /\
               iphdr + ihl_at ctx iphdr * 4 + sizeof_udphdr <= d_end) /\
    (protocol_at ctx iphdr = IPPROTO_UDP ->
     udphdr = Some (iphdr + ihl_at ctx iphdr * 4)) /\
    (d = data ctx -> d_end = data_end ctx -> iphdr = data ctx + sizeof_ethhdr ->
     ether_type ctx = ETH_P_IP -> r <> 0 ->
     forall xsks_map stats_map,
       xdp_wraith_filter host bpf_redirect_map ctx xsks_map stats_map
       = Some (XDP_PASS, stats_map)).
Proof.
  unfold sizeof_iphdr, sizeof_udphdr, sizeof_ethhdr, IPPROTO_UDP, ETH_P_IP, data_end.
  intros Hlo Hhi.
  unfold parse_udphdr_v4, off_ip_protocol, IPPROTO_UDP, sizeof_udphdr.
  replace (iphdr + 9) with (data ctx + (iphdr - data ctx + 9)) by lia.
  rewrite load_u8_in by lia. cbn [mbind option_bind].
  fold (protocol_at ctx iphdr).
  destruct (Z.eqb_spec (protocol_at ctx iphdr) 17) as [Hp|Hp]; cbn [negb].
  - replace (load_u8 ctx iphdr) with (load_u8 ctx (data ctx + (iphdr - data ctx)))
      by (f_equal; lia).
    rewrite load_u8_in by lia. cbn [mbind option_bind].
    rewrite hdr_ihl_mod by apply frame_byte_range. fold (ihl_at ctx iphdr).
    rewrite Z.gtb_ltb.
    destruct (Z.ltb_spec d_end (iphdr + ihl_at ctx iphdr * 4 + 8)) as [Hs|Hs];
      eexists _, _; (split; [reflexivity|]).
    + repeat split; try lia; try tauto.
      intros -> -> -> He _ xsks_map stats_map.
      rewrite filter_spec, (parse_failure_no_match ctx); [reflexivity|].
      apply truncated_udp4; [assumption|].
      unfold ihl_at in Hs. replace (data ctx + 14 - data ctx) with 14 in Hs by lia.
      unfold udp4_offset, ip4_ihl. lia.
    + repeat split; try lia; try tauto.
  - eexists _, _. split; [reflexivity|].
    repeat split; try lia; try tauto.
    intros _ _ -> He _ xsks_map stats_map.
    rewrite filter_spec, (parse_failure_no_match ctx); [reflexivity|].
    apply ipv4_not_udp; [assumption|].
    unfold protocol_at in Hp. replace (data ctx + 14 - data ctx + 9) with 23 in Hp by lia.
    exact Hp.
Qed.

Lemma matching_frame_accounted ctx xsks_map stats_map :
  wraith_match ctx = true -> stats_provisioned stats_map ->
  exists act stats_map',
    xdp_wraith_filter host bpf_redirect_map ctx xsks_map stats_map
    = Some (act, stats_map') /\
    (act, stats_map')
    = dispatch (bpf_redirect_map xsks_map (rx_queue_index ctx) 0)
               (account (frame_len ctx) stats_map) /\
    stat (account (frame_len ctx) stats_map) STAT_RX_PACKETS
    = wrap64 (stat stats_map STAT_RX_PACKETS + 1) /\
    stat (account (frame_len ctx) stats_map) STAT_RX_BYTES
    = wrap64 (stat stats_map STAT_RX_BYTES + frame_len ctx) /\
    stat stats_map' STAT_RX_PACKETS = wrap64 (stat stats_map STAT_RX_PACKETS + 1) /\
    stat stats_map' STAT_RX_BYTES
    = wrap64 (stat stats_map STAT_RX_BYTES + frame_len ctx).
Proof.
  intros Hm Hp. rewrite filter_spec, Hm.
  pose proof (stat_dispatch (bpf_redirect_map xsks_map (rx_queue_index ctx) 0)
                (account (frame_len ctx) stats_map)) as Hd.
  destruct (dispatch _ _) as [act st'] eqn:E. cbn [snd] in Hd.
  exists act, st'. split; [reflexivity|]. split; [reflexivity|].
  rewrite !Hd by (auto using account_provisioned; unfold STAT_RX_PACKETS, STAT_RX_BYTES; lia).
  rewrite !stat_account by (auto; unfold STAT_RX_PACKETS, STAT_RX_BYTES; lia).
  unfold STAT_RX_PACKETS, STAT_RX_BYTES, STAT_REDIRECTED, STAT_DROPPED.
  destruct (_ =? XDP_REDIRECT); repeat split; reflexivity.
Qed.

Lemma run_filter_accounted invs : forall stats_map,
  Forall (fun inv => wraith_match inv.1 = true) invs ->
  stats_provisioned stats_map ->
  exists acts stats_map',
    run_filter host bpf_redirect_map invs stats_map = Some (acts, stats_map') /\
    stats_provisioned stats_map' /\
    length acts = length invs /\
    stat stats_map' STAT_RX_PACKETS
    = wrap64 (stat stats_map STAT_RX_PACKETS + Z.of_nat (length invs)) /\
    stat stats_map' STAT_RX_BYTES
    = wrap64 (stat stats_map STAT_RX_BYTES + total_frame_len invs) /\
    stat stats_map' STAT_REDIRECTED
    = wrap64 (stat stats_map STAT_REDIRECTED + count_action XDP_REDIRECT acts) /\
    stat stats_map' STAT_DROPPED
    = wrap64 (stat stats_map STAT_DROPPED + count_action XDP_DROP acts) /\
    count_action XDP_REDIRECT acts + count_action XDP_DROP acts
    = Z.of_nat (length invs).
Proof.
  induction invs as [|[ctx xsks_map] rest IH]; intros st Hall Hp.
  - exists [], st. cbn [run_filter length count_action total_frame_len].
    rewrite !Z.add_0_r, !wrap64_small by (apply stat_range; assumption).
    repeat split; solve [reflexivity | apply Hp].
  - apply Forall_cons in Hall as [Hm Hall]. cbn [fst] in Hm.
    cbn [run_filter]. rewrite filter_spec, Hm.
    set (ret := bpf_redirect_map xsks_map (rx_queue_index ctx) 0).
    pose proof (stat_dispatch ret (account (frame_len ctx) st)) as Hd.
    pose proof (dispatch_action ret (account (frame_len ctx) st)) as Ha.
    pose proof (dispatch_provisioned ret _ (account_provisioned (frame_len ctx) _ Hp)) as Hp1.
    destruct (dispatch ret (account (frame_len ctx) st)) as [act st1].
    cbn [fst snd] in Hd, Ha, Hp1. cbn [mbind option_bind].
    destruct (IH st1 Hall Hp1) as (acts & st' & Hrun & Hp' & Hlen & H0 & H1 & H3 & H2 & Hcnt).
    rewrite Hrun. cbn [mbind option_bind].
    exists (act :: acts), st'. split; [reflexivity|]. split; [assumption|].
    cbn [length count_action total_frame_len].
    rewrite H0, H1, H2, H3.
    rewrite !Hd by (auto using account_provisioned;
                    unfold STAT_RX_PACKETS, STAT_RX_BYTES, STAT_REDIRECTED, STAT_DROPPED; lia).
    rewrite !stat_account
      by (auto; unfold STAT_RX_PACKETS, STAT_RX_BYTES, STAT_REDIRECTED, STAT_DROPPED; lia).
    subst act.
    unfold STAT_RX_PACKETS, STAT_RX_BYTES, STAT_REDIRECTED, STAT_DROPPED, XDP_REDIRECT,
      XDP_DROP in *.
    destruct (ret =? 4); cbn [Z.eqb Pos.eqb];
      rewrite ?wrap64_add_l;
      repeat split; try (f_equal; lia); lia.
Qed.

(** C5. On every frame that matches the selection criteria, rx_packets is
    incremented by 1 and rx_bytes by the frame length (data_end - data), in
    the accounting that precedes the dispatch and whatever the redirect
    helper returns.  Hence over N such invocations rx_packets grows by N,
    rx_bytes by the sum of the frame lengths, and the redirected and
    dropped counters grow by the numbers of redirect and drop actions,
    which add up to N.  Counters are 64-bit: additions are modulo 2^64. *)
Theorem matching_frames_accounted invs stats_map :
  Forall (fun inv => wraith_match inv.1 = true) invs ->
  stats_provisioned stats_map ->
  (forall ctx xsks_map st,
     (ctx, xsks_map) ∈ invs -> stats_provisioned st ->
     exists act st',
       xdp_wraith_filter host bpf_redirect_map ctx xsks_map st = Some (act, st') /\
       (act, st') = dispatch (bpf_redirect_map xsks_map (rx_queue_index ctx) 0)
                             (account (frame_len ctx) st) /\
       stat (account (frame_len ctx) st) STAT_RX_PACKETS
       = wrap64 (stat st STAT_RX_PACKETS + 1) /\
       stat (account (frame_len ctx) st) STAT_RX_BYTES
       = wrap64 (stat st STAT_RX_BYTES + frame_len ctx) /\
       stat st' STAT_RX_PACKETS = wrap64 (stat st STAT_RX_PACKETS + 1) /\
       stat st' STAT_RX_BYTES = wrap64 (stat st STAT_RX_BYTES + frame_len ctx)) /\
  exists acts stats_map',
    run_filter host bpf_redirect_map invs stats_map = Some (acts, stats_map') /\
    length acts = length invs /\
    stat stats_map' STAT_RX_PACKETS
    = wrap64 (stat stats_map STAT_RX_PACKETS + Z.of_nat (length invs)) /\
    stat stats_map' STAT_RX_BYTES
    = wrap64 (stat stats_map STAT_RX_BYTES + total_frame_len invs) /\
    stat stats_map' STAT_REDIRECTED
    = wrap64 (stat stats_map STAT_REDIRECTED + count_action XDP_REDIRECT acts) /\
    stat stats_map' STAT_DROPPED
    = wrap64 (stat stats_map STAT_DROPPED + count_action XDP_DROP acts) /\
    count_action XDP_REDIRECT acts + count_action XDP_DROP acts
    = Z.of_nat (length invs).
Proof.
  intros Hall Hp. split.
  - intros ctx xsks_map st Hin Hst.
    rewrite Forall_forall in Hall. specialize (Hall _ Hin). cbn [fst] in Hall.
    apply matching_frame_accounted; assumption.
  - destruct (run_filter_accounted invs stats_map Hall Hp)
      as (acts & st' & Hrun & _ & Hrest).
    exists acts, st'. split; assumption.
Qed.

(** C9 (amended). One run of the program leaves every slot of the
    statistics array either as it was or with 1 or the (non-negative) frame
    length added to it modulo 2^64, so a slot does not decrease unless the
    64-bit addition wraps around; an absent slot stays absent and the run
    still returns; and update_stat does nothing when its lookup fails. *)
Theorem counters_only_added_to ctx xsks_map stats_map :
  0 <= frame_len ctx /\
  (exists act stats_map',
     xdp_wraith_filter host bpf_redirect_map ctx xsks_map stats_map
     = Some (act, stats_map') /\
     forall i : nat,
       slot_step (frame_len ctx) (stats_map !! i) (stats_map' !! i) /\
       (forall v v',
          stats_map !! i = Some v -> stats_map' !! i = Some v' ->
          0 <= v -> v + Z.max 1 (frame_len ctx) < 2 ^ 64 -> v <= v')) /\
  (forall type delta,
     stats_map !! Z.to_nat type = None -> update_stat type delta stats_map = stats_map).
Proof.
  split; [apply frame_len_nonneg|].
  split; [|intros type delta; apply update_stat_absent].
  rewrite filter_spec.
  assert (Hstep : forall st' : list Z,
             (forall i : nat, slot_step (frame_len ctx) (stats_map !! i) (st' !! i)) ->
             forall i : nat,
               slot_step (frame_len ctx) (stats_map !! i) (st' !! i) /\
               (forall v v',
                  stats_map !! i = Some v -> st' !! i = Some v' ->
                  0 <= v -> v + Z.max 1 (frame_len ctx) < 2 ^ 64 -> v <= v')).
  { intros st' Hs i. split; [apply Hs|].
    intros v v' Hv Hv' H0 Hmax. specialize (Hs i). rewrite Hv, Hv' in Hs.
    eapply slot_step_monotone; eauto using frame_len_nonneg. }
  destruct (wraith_match ctx).
  - destruct (dispatch _ _) as [act st'] eqn:E.
    exists act, st'. split; [reflexivity|]. apply Hstep. intros i.
    replace st' with (dispatch (bpf_redirect_map xsks_map (rx_queue_index ctx) 0)
                        (account (frame_len ctx) stats_map)).2 by (rewrite E; reflexivity).
    apply slot_step_dispatch.
  - exists XDP_PASS, stats_map. split; [reflexivity|]. apply Hstep. intros i.
    destruct (stats_map !! i); constructor.
Qed.

End Properties.

(** ** Scenarios *)

(** C1. A first fragment (IPv4, "more fragments" set, fragment offset 0)
    with a destination port in range is not rejected by parse_iphdr: the
    program accounts it and dispatches it instead of passing it. *)
Theorem first_fragment_not_rejected :
  ip4_more_fragments ctx_first_fragment = true /\
  ip4_frag_offset ctx_first_fragment = 0 /\
  udp4_dport ctx_first_fragment = 40000 /\
  forall host,
    parse_iphdr host ctx_first_fragment (data ctx_first_fragment)
      (data_end ctx_first_fragment)
    = Some (0, data ctx_first_fragment + sizeof_ethhdr) /\
    (forall bpf_redirect_map xsks_map stats_map,
       exists act stats_map',
         xdp_wraith_filter host bpf_redirect_map ctx_first_fragment xsks_map stats_map
         = Some (act, stats_map') /\ act <> XDP_PASS) /\
    xdp_wraith_filter host xsk_redirect ctx_first_fragment xsks_queue3 zero_stats
    = Some (XDP_REDIRECT, [1; 60; 0; 1]).
Proof.
  split; [vm_compute; reflexivity|].
  split; [vm_compute; reflexivity|].
  split; [vm_compute; reflexivity|].
  intros host. split; [destruct host; vm_compute; reflexivity|]. split.
  - intros redirect xsks_map stats_map. rewrite filter_spec.
    replace (wraith_match ctx_first_fragment) with true by (vm_compute; reflexivity).
    unfold dispatch. destruct (_ =? XDP_REDIRECT); eexists _, _;
      (split; [reflexivity|]); unfold XDP_PASS, XDP_REDIRECT, XDP_DROP; lia.
  - destruct host; vm_compute; reflexivity.
Qed.

(** C6. An IPv4 fragment with "more fragments" set and fragment offset 0 is
    not among the frames the program passes untouched: with a destination
    port in range it is redirected (dropped on a table miss), and on any
    provisioned statistics array rx_packets is incremented, so the array
    is modified. *)
Theorem first_fragment_accounted :
  ip4_more_fragments ctx_first_fragment = true /\
  forall host,
    xdp_wraith_filter host xsk_redirect ctx_first_fragment xsks_queue3 zero_stats
    = Some (XDP_REDIRECT, [1; 60; 0; 1]) /\
    xdp_wraith_filter host xsk_redirect ctx_first_fragment ∅ zero_stats
    = Some (XDP_DROP, [1; 60; 1; 0]) /\
    forall bpf_redirect_map xsks_map stats_map,
      stats_provisioned stats_map ->
      exists act stats_map',
        xdp_wraith_filter host bpf_redirect_map ctx_first_fragment xsks_map stats_map
        = Some (act, stats_map') /\
        act <> XDP_PASS /\
        stat stats_map' STAT_RX_PACKETS = wrap64 (stat stats_map STAT_RX_PACKETS + 1) /\
        stats_map' <> stats_map.
Proof.
  split; [vm_compute; reflexivity|].
  intros host. split; [destruct host; vm_compute; reflexivity|].
  split; [destruct host; vm_compute; reflexivity|].
  intros redirect xsks_map stats_map Hp. rewrite filter_spec.
  replace (wraith_match ctx_first_fragment) with true by (vm_compute; reflexivity).
  set (ret := redirect xsks_map (rx_queue_index ctx_first_fragment) 0).
  set (len := frame_len ctx_first_fragment).
  pose proof (stat_dispatch ret (account len stats_map)) as Hd.
  pose proof (dispatch_action ret (account len stats_map)) as Ha.
  destruct (dispatch ret (account len stats_map)) as [act st'].
  cbn [fst snd] in Hd, Ha.
  assert (H0 : stat st' STAT_RX_PACKETS = wrap64 (stat stats_map STAT_RX_PACKETS + 1)).
  { rewrite Hd by (auto using account_provisioned; unfold STAT_RX_PACKETS; lia).
    rewrite !stat_account by (auto; unfold STAT_RX_PACKETS; lia).
    unfold STAT_RX_PACKETS, STAT_REDIRECTED, STAT_DROPPED.
    destruct (ret =? XDP_REDIRECT); reflexivity. }
  exists act, st'. split; [reflexivity|]. split.
  - subst act. destruct (ret =? XDP_REDIRECT); unfold XDP_REDIRECT, XDP_DROP, XDP_PASS; lia.
  - split; [exact H0|]. intros Heq. rewrite Heq in H0.
    exact (wrap64_succ_ne _ (stat_range stats_map STAT_RX_PACKETS Hp) (eq_sym H0)).
Qed.

(** C10. parse_iphdr does not look at the header length field.  In the
    frame below it is 4: both parse steps succeed, the UDP header is placed
    16 bytes into the 20-byte IPv4 header, the destination port read is the
    low half of the IPv4 destination address (40000), and the frame is
    accounted and redirected although its UDP destination port is 8080. *)
Theorem short_ihl_frame_redirected :
  ip_version ctx_short_ihl = 4 /\
  ip4_frag_field ctx_short_ihl = 0 /\
  ip4_protocol ctx_short_ihl = IPPROTO_UDP /\
  ip4_ihl ctx_short_ihl = 4 /\
  be16 ctx_short_ihl (14 + 16 + 2) = 40000 /\
  be16 ctx_short_ihl (14 + 20 + 2) = 8080 /\
  forall host,
    let ip := data ctx_short_ihl + sizeof_ethhdr in
    parse_iphdr host ctx_short_ihl (data ctx_short_ihl) (data_end ctx_short_ihl)
    = Some (0, ip) /\
    parse_udphdr_v4 ctx_short_ihl (data ctx_short_ihl) (data_end ctx_short_ihl) ip
    = Some (0, Some (ip + 16)) /\
    ip + 16 < ip + sizeof_iphdr /\
    bpf_ntohs host <$> load_u16 host ctx_short_ihl (ip + 16 + off_udp_dest) = Some 40000 /\
    (forall bpf_redirect_map xsks_map stats_map,
       xdp_wraith_filter host bpf_redirect_map ctx_short_ihl xsks_map stats_map
       = Some (dispatch (bpf_redirect_map xsks_map 3 0) (account 60 stats_map))) /\
    xdp_wraith_filter host xsk_redirect ctx_short_ihl xsks_queue3 zero_stats
    = Some (XDP_REDIRECT, [1; 60; 0; 1]).
Proof.
  do 6 (split; [vm_compute; reflexivity|]).
  intros host ip. subst ip.
  split; [destruct host; vm_compute; reflexivity|].
  split; [vm_compute; reflexivity|].
  split; [vm_compute; reflexivity|].
  split; [destruct host; vm_compute; reflexivity|].
  split.
  - intros redirect xsks_map stats_map. rewrite filter_spec.
    replace (wraith_match ctx_short_ihl) with true by (vm_compute; reflexivity).
    replace (frame_len ctx_short_ihl) with 60 by (vm_compute; reflexivity).
    reflexivity.
  - destruct host; vm_compute; reflexivity.
Qed.

(** C9 (as stated). A slot holding 2^64 - 1 wraps to 0 when the program
    adds 1 to it: the counter is lower after the run than before. *)
Lemma counter_wraps_at_limit :
  xdp_wraith_filter LittleEndian xsk_redirect (ctx60 41000) xsks_queue3 stats_at_limit
  = Some (XDP_REDIRECT, [0; 60; 0; 1]) /\
  stats_provisioned stats_at_limit /\
  ~ (stat stats_at_limit STAT_RX_PACKETS <= stat [0; 60; 0; 1] STAT_RX_PACKETS).
Proof.
  split; [vm_compute; reflexivity|]. split.
  - split; [reflexivity|]. unfold stats_at_limit. repeat constructor; lia.
  - vm_compute. intros H. apply H. reflexivity.
Qed.

(** ** The scenarios of the specification *)

(* Port boundaries on the 60-byte IPv4 frame and on an IPv6 frame. *)
Example port_39999_passes host :
  xdp_wraith_filter host xsk_redirect (ctx60 39999) xsks_queue3 zero_stats
  = Some (XDP_PASS, zero_stats) /\
  xdp_wraith_filter host xsk_redirect (ctx6 39999) xsks_queue3 zero_stats
  = Some (XDP_PASS, zero_stats).
Proof. destruct host; vm_compute; split; reflexivity. Qed.

Example port_40000_redirected host :
  xdp_wraith_filter host xsk_redirect (ctx60 40000) xsks_queue3 zero_stats
  = Some (XDP_REDIRECT, [1; 60; 0; 1]) /\
  xdp_wraith_filter host xsk_redirect (ctx6 40000) xsks_queue3 zero_stats
  = Some (XDP_REDIRECT, [1; 70; 0; 1]).
Proof. destruct host; vm_compute; split; reflexivity. Qed.

Example port_50000_redirected host :
  xdp_wraith_filter host xsk_redirect (ctx60 50000) xsks_queue3 zero_stats
  = Some (XDP_REDIRECT, [1; 60; 0; 1]) /\
  xdp_wraith_filter host xsk_redirect (ctx6 50000) xsks_queue3 zero_stats
  = Some (XDP_REDIRECT, [1; 70; 0; 1]).
Proof. destruct host; vm_compute; split; reflexivity. Qed.

Example port_50001_passes host :
  xdp_wraith_filter host xsk_redirect (ctx60 50001) xsks_queue3 zero_stats
  = Some (XDP_PASS, zero_stats) /\
  xdp_wraith_filter host xsk_redirect (ctx6 50001) xsks_queue3 zero_stats
  = Some (XDP_PASS, zero_stats).
Proof. destruct host; vm_compute; split; reflexivity. Qed.

(* End to end: port 41000 on queue 3 with a socket registered; port 8080. *)
Example end_to_end_redirected host :
  xdp_wraith_filter host xsk_redirect (ctx60 41000) xsks_queue3 zero_stats
  = Some (XDP_REDIRECT, [1; 60; 0; 1]).
Proof. destruct host; vm_compute; reflexivity. Qed.

Example end_to_end_passed host :
  xdp_wraith_filter host xsk_redirect (ctx60 8080) xsks_queue3 zero_stats
  = Some (XDP_PASS, zero_stats).
Proof. destruct host; vm_compute; reflexivity. Qed.

(* No socket registered for the queue. *)
Example redirect_table_miss host :
  xdp_wraith_filter host xsk_redirect (ctx60 41000) ∅ zero_stats
  = Some (XDP_DROP, [1; 60; 1; 0]).
Proof. destruct host; vm_compute; reflexivity. Qed.

(* The statistics array is absent: the run is the same, nothing is counted. *)
Example no_statistics_slots host :
  xdp_wraith_filter host xsk_redirect (ctx60 41000) xsks_queue3 []
  = Some (XDP_REDIRECT, []).
Proof. destruct host; vm_compute; reflexivity. Qed.

Lemma zero_stats_provisioned : stats_provisioned zero_stats.
Proof. split; [reflexivity|]. unfold zero_stats. repeat constructor; lia. Defined.

(** ** Instances of the theorems *)

Lemma udp_port_range_decides_witness :
  ((well_formed_udp4 (ctx60 40000) = true /\ 40000 = udp4_dport (ctx60 40000)) \/
   (well_formed_udp6 (ctx60 40000) = true /\ 40000 = udp6_dport (ctx60 40000))) /\
  exists act stats_map',
    xdp_wraith_filter LittleEndian xsk_redirect (ctx60 40000) xsks_queue3 zero_stats
    = Some (act, stats_map') /\
    ((act = XDP_REDIRECT \/ act = XDP_DROP) <-> 40000 <= 40000 <= 50000) /\
    (act = XDP_PASS <-> ~ (40000 <= 40000 <= 50000)).
Proof.
  assert (H : (well_formed_udp4 (ctx60 40000) = true /\ 40000 = udp4_dport (ctx60 40000)) \/
              (well_formed_udp6 (ctx60 40000) = true /\ 40000 = udp6_dport (ctx60 40000))).
  { left. split; vm_compute; reflexivity. }
  split; [exact H|].
  exact (udp_port_range_decides LittleEndian xsk_redirect (ctx60 40000) xsks_queue3
           zero_stats 40000 H).
Defined.

Lemma redirect_failure_drops_witness :
  wraith_match (ctx60 41000) = true /\
  xsk_redirect ∅ (rx_queue_index (ctx60 41000)) 0 <> XDP_REDIRECT /\
  stats_provisioned zero_stats /\
  exists stats_map',
    xdp_wraith_filter BigEndian xsk_redirect (ctx60 41000) ∅ zero_stats
    = Some (XDP_DROP, stats_map') /\
    stat stats_map' STAT_DROPPED = wrap64 (stat zero_stats STAT_DROPPED + 1) /\
    stat stats_map' STAT_REDIRECTED = stat zero_stats STAT_REDIRECTED.
Proof.
  assert (H1 : wraith_match (ctx60 41000) = true) by (vm_compute; reflexivity).
  assert (H2 : xsk_redirect ∅ (rx_queue_index (ctx60 41000)) 0 <> XDP_REDIRECT)
    by (vm_compute; discriminate).
  repeat (split; [assumption || exact zero_stats_provisioned|]).
  exact (redirect_failure_drops BigEndian xsk_redirect (ctx60 41000) ∅ zero_stats
           H1 H2 zero_stats_provisioned).
Defined.

Lemma matching_frames_accounted_witness :
  Forall (fun inv => wraith_match inv.1 = true) three_frames /\
  stats_provisioned zero_stats /\
  exists acts stats_map',
    run_filter LittleEndian xsk_redirect three_frames zero_stats
    = Some (acts, stats_map') /\
    length acts = length three_frames /\
    stat stats_map' STAT_RX_PACKETS
    = wrap64 (stat zero_stats STAT_RX_PACKETS + Z.of_nat (length three_frames)) /\
    stat stats_map' STAT_RX_BYTES
    = wrap64 (stat zero_stats STAT_RX_BYTES + total_frame_len three_frames) /\
    stat stats_map' STAT_REDIRECTED
    = wrap64 (stat zero_stats STAT_REDIRECTED + count_action XDP_REDIRECT acts) /\
    stat stats_map' STAT_DROPPED
    = wrap64 (stat zero_stats STAT_DROPPED + count_action XDP_DROP acts) /\
    count_action XDP_REDIRECT acts + count_action XDP_DROP acts
    = Z.of_nat (length three_frames).
Proof.
  assert (H : Forall (fun inv => wraith_match inv.1 = true) three_frames)
    by (unfold three_frames; repeat constructor; vm_compute; reflexivity).
  split; [exact H|]. split; [exact zero_stats_provisioned|].
  exact (proj2 (matching_frames_accounted LittleEndian xsk_redirect three_frames
                  zero_stats H zero_stats_provisioned)).
Defined.

Lemma parse_failure_passes_witness :
  parse_failure ctx_tcp /\
  xdp_wraith_filter LittleEndian xsk_redirect ctx_tcp xsks_queue3 zero_stats
  = Some (XDP_PASS, zero_stats).
Proof.
  assert (H : parse_failure ctx_tcp).
  { apply ipv4_not_udp; [vm_compute; reflexivity | vm_compute; discriminate]. }
  split; [exact H|].
  exact (parse_failure_passes LittleEndian xsk_redirect ctx_tcp xsks_queue3 zero_stats H).
Defined.

Lemma parse_udphdr_v4_honours_ihl_witness :
  data (ctx60 41000) <= 0x100e /\
  0x100e + sizeof_iphdr <= data_end (ctx60 41000) /\
  exists r udphdr,
    parse_udphdr_v4 (ctx60 41000) 0x1000 0x103c 0x100e = Some (r, udphdr) /\
    (r = 0 \/ r = -1) /\
    (r = 0 <-> protocol_at (ctx60 41000) 0x100e = IPPROTO_UDP /\
               0x100e + ihl_at (ctx60 41000) 0x100e * 4 + sizeof_udphdr <= 0x103c) /\
    (protocol_at (ctx60 41000) 0x100e = IPPROTO_UDP ->
     udphdr = Some (0x100e + ihl_at (ctx60 41000) 0x100e * 4)).
Proof.
  assert (H1 : data (ctx60 41000) <= 0x100e) by (vm_compute; discriminate).
  assert (H2 : 0x100e + sizeof_iphdr <= data_end (ctx60 41000)) by (vm_compute; discriminate).
  split; [exact H1|]. split; [exact H2|].
  destruct (parse_udphdr_v4_honours_ihl LittleEndian xsk_redirect (ctx60 41000)
              0x1000 0x103c 0x100e H1 H2) as (r & udphdr & Hr & H01 & Hiff & Hudp & _).
  exists r, udphdr. repeat split; try assumption; apply Hiff.
Defined.

Lemma disposition_deterministic_witness :
  frame (ctx60 41000) = frame (mk_xdp_md 0x8000 (udp4_bytes 0x45 0x40 0x00 17 41000) 5) /\
  xsk_redirect xsks_queue3 (rx_queue_index (ctx60 41000)) 0
  = xsk_redirect {[ 5 := 9 ]} 5 0 /\
  exists act,
    fst <$> xdp_wraith_filter LittleEndian xsk_redirect (ctx60 41000) xsks_queue3 zero_stats
    = Some act /\
    fst <$> xdp_wraith_filter LittleEndian xsk_redirect
              (mk_xdp_md 0x8000 (udp4_bytes 0x45 0x40 0x00 17 41000) 5) {[ 5 := 9 ]}
              stats_at_limit
    = Some act.
Proof.
  assert (H1 : frame (ctx60 41000)
               = frame (mk_xdp_md 0x8000 (udp4_bytes 0x45 0x40 0x00 17 41000) 5))
    by reflexivity.
  assert (H2 : xsk_redirect xsks_queue3 (rx_queue_index (ctx60 41000)) 0
               = xsk_redirect {[ 5 := 9 ]} 5 0) by (vm_compute; reflexivity).
  split; [exact H1|]. split; [exact H2|].
  exact (disposition_deterministic LittleEndian xsk_redirect (ctx60 41000)
           (mk_xdp_md 0x8000 (udp4_bytes 0x45 0x40 0x00 17 41000) 5)
           xsks_queue3 {[ 5 := 9 ]} zero_stats stats_at_limit H1 H2).
Defined.

Lemma counters_only_added_to_witness :
  exists act stats_map',
    xdp_wraith_filter LittleEndian xsk_redirect (ctx60 41000) xsks_queue3 [5; 100]
    = Some (act, stats_map') /\
    forall i : nat,
      slot_step (frame_len (ctx60 41000)) ([5; 100] !! i) (stats_map' !! i) /\
      (forall v v',
         [5; 100] !! i = Some v -> stats_map' !! i = Some v' ->
         0 <= v -> v + Z.max 1 (frame_len (ctx60 41000)) < 2 ^ 64 -> v <= v').
Proof.
  exact (proj1 (proj2 (counters_only_added_to LittleEndian xsk_redirect (ctx60 41000)
                         xsks_queue3 [5; 100]))).
Defined.

(** * Further properties of the single steps *)

Lemma load_u8_value ctx addr v :
  load_u8 ctx addr = Some v -> v = frame_byte ctx (addr - data ctx).
Proof.
  intros H. assert (Hr : data ctx <= addr < data_end ctx)
    by (apply load_u8_is_Some; eauto).
  unfold data_end in Hr.
  replace addr with (data ctx + (addr - data ctx)) in H by lia.
  rewrite load_u8_in in H by lia. congruence.
Qed.

Lemma load_u8_out ctx addr :
  ~ (data ctx <= addr < data_end ctx) -> load_u8 ctx addr = None.
Proof.
  intros H. destruct (load_u8 ctx addr) eqn:E; [|reflexivity].
  exfalso. apply H, load_u8_is_Some. eauto.
Qed.

Lemma wraith_match_v4 ctx :
  ether_type ctx = 0x0800 ->
  wraith_match ctx = accepts_udp4 ctx && in_wraith_range (udp4_dport ctx).
Proof.
  intros H. unfold wraith_match, accepts_udp6. rewrite H.
  rewrite !andb_false_r. apply orb_false_r.
Qed.

Lemma wraith_match_not_v4 ctx :
  ether_type ctx <> 0x0800 ->
  wraith_match ctx = accepts_udp6 ctx && in_wraith_range (udp6_dport ctx).
Proof.
  intros H. apply Z.eqb_neq in H. unfold wraith_match, accepts_udp4. rewrite H.
  rewrite !andb_false_r. reflexivity.
Qed.

Section Steps.

Variable host : byte_order.
Variable bpf_redirect_map : gmap Z Z -> Z -> Z -> Z.

(** X1. The result of the program does not depend on the byte order of the
    machine it is compiled for. *)
Theorem filter_host_independent host' ctx xsks_map stats_map :
  xdp_wraith_filter host bpf_redirect_map ctx xsks_map stats_map
  = xdp_wraith_filter host' bpf_redirect_map ctx xsks_map stats_map.
Proof. rewrite !filter_spec. reflexivity. Qed.

(** X2. parse_ethhdr hands back data, data_end and the header at data, and
    succeeds exactly when all 14 bytes of the Ethernet header can be read;
    the ether-type then read and converted is the big-endian value of bytes
    12 and 13. *)
Theorem parse_ethhdr_exact ctx :
  exists r,
    parse_ethhdr ctx = (r, data ctx, data_end ctx, data ctx) /\
    (r = 0 \/ r = -1) /\
    (r = 0 <->
     forall off, 0 <= off < sizeof_ethhdr -> is_Some (load_u8 ctx (data ctx + off))) /\
    (r = 0 ->
     bpf_ntohs host <$> load_u16 host ctx (data ctx + off_eth_h_proto)
     = Some (ether_type ctx)).
Proof.
  rewrite parse_ethhdr_spec. unfold sizeof_ethhdr.
  destruct (Z.leb_spec 14 (frame_len ctx)) as [H|H]; eexists; (split; [reflexivity|]).
  - split; [left; reflexivity|]. split.
    + split; [|reflexivity]. intros _ off Hoff. rewrite load_u8_in by lia. eauto.
    + intros _. apply load_eth_proto. assumption.
  - split; [right; reflexivity|]. split; [|lia].
    split; [lia|]. intros Hall. exfalso.
    assert (Hs : is_Some (load_u8 ctx (data ctx + 13))) by (apply Hall; lia).
    apply load_u8_is_Some in Hs. unfold data_end in Hs. lia.
Qed.

(** X3. parse_iphdr never reads outside the frame, yields the header at
    data + 14, and returns 0 exactly when 34 bytes are there, the version
    nibble is 4 and the 13-bit fragment offset is 0; it returns -1
    otherwise. *)
Theorem parse_iphdr_accepts_iff ctx :
  exists r,
    parse_iphdr host ctx (data ctx) (data_end ctx)
    = Some (r, data ctx + sizeof_ethhdr) /\
    (r = 0 \/ r = -1) /\
    (r = 0 <->
     sizeof_ethhdr + sizeof_iphdr <= frame_len ctx /\ ip_version ctx = 4 /\
     ip4_frag_offset ctx = 0).
Proof.
  rewrite parse_iphdr_spec. unfold sizeof_ethhdr, sizeof_iphdr.
  destruct (Z.leb_spec 34 (frame_len ctx));
    destruct (Z.eqb_spec (ip_version ctx) 4);
    destruct (Z.eqb_spec (ip4_frag_offset ctx) 0);
    cbn [andb]; eexists; (split; [reflexivity|]); split; try tauto; lia.
Qed.

(** X4. parse_ipv6hdr never reads outside the frame, yields the header at
    data + 14, and returns 0 exactly when 54 bytes are there and the version
    nibble is 6; nothing else of the IPv6 header is looked at. *)
Theorem parse_ipv6hdr_accepts_iff ctx :
  exists r,
    parse_ipv6hdr ctx (data ctx) (data_end ctx)
    = Some (r, data ctx + sizeof_ethhdr) /\
    (r = 0 \/ r = -1) /\
    (r = 0 <-> sizeof_ethhdr + sizeof_ipv6hdr <= frame_len ctx /\ ip_version ctx = 6).
Proof.
  rewrite parse_ipv6hdr_spec. unfold sizeof_ethhdr, sizeof_ipv6hdr.
  destruct (Z.leb_spec 54 (frame_len ctx));
    destruct (Z.eqb_spec (ip_version ctx) 6);
    cbn [andb]; eexists; (split; [reflexivity|]); split; try tauto; lia.
Qed.

(** X5. On a readable IPv6 header, parse_udphdr_v6 returns 0 exactly when
    the next header is UDP and 8 bytes fit between ipv6hdr + 40 and the end
    pointer; the UDP header is at ipv6hdr + 40 whenever the next header is
    UDP and is left unassigned otherwise. *)
Theorem parse_udphdr_v6_fixed_offset ctx d d_end ipv6hdr :
  data ctx <= ipv6hdr -> ipv6hdr + sizeof_ipv6hdr <= data_end ctx ->
  exists r udphdr,
    parse_udphdr_v6 ctx d d_end ipv6hdr = Some (r, udphdr) /\
    (r = 0 \/ r = -1) /\
    (r = 0 <-> nexthdr_at ctx ipv6hdr = IPPROTO_UDP /\
               ipv6hdr + sizeof_ipv6hdr + sizeof_udphdr <= d_end) /\
    (nexthdr_at ctx ipv6hdr = IPPROTO_UDP -> udphdr = Some (ipv6hdr + sizeof_ipv6hdr)) /\
    (nexthdr_at ctx ipv6hdr <> IPPROTO_UDP -> udphdr = None).
Proof.
  unfold sizeof_ipv6hdr, sizeof_udphdr, IPPROTO_UDP, data_end. intros Hlo Hhi.
  unfold parse_udphdr_v6, off_ipv6_nexthdr, IPPROTO_UDP, sizeof_udphdr, sizeof_ipv6hdr.
  replace (ipv6hdr + 6) with (data ctx + (ipv6hdr - data ctx + 6)) by lia.
  rewrite load_u8_in by lia. cbn [mbind option_bind]. fold (nexthdr_at ctx ipv6hdr).
  destruct (Z.eqb_spec (nexthdr_at ctx ipv6hdr) 17) as [Hp|Hp]; cbn [negb].
  - rewrite Z.gtb_ltb.
    destruct (Z.ltb_spec d_end (ipv6hdr + 40 + 8)); eexists _, _;
      (split; [reflexivity|]); repeat split; try lia; try tauto.
  - eexists _, _. split; [reflexivity|]. repeat split; try lia; try tauto.
Qed.

(** X6. The UDP parse steps do not check the header they are given: they
    return without a fault exactly when the field they read lies inside the
    frame (the protocol byte at iphdr + 9 and, for UDP, the first byte of
    the IPv4 header; the next-header byte at ipv6hdr + 6). *)
Theorem parse_udphdr_reads_unchecked ctx d d_end hdr :
  (is_Some (parse_udphdr_v4 ctx d d_end hdr) <->
   data ctx <= hdr + off_ip_protocol < data_end ctx /\
   (protocol_at ctx hdr = IPPROTO_UDP -> data ctx <= hdr)) /\
  (is_Some (parse_udphdr_v6 ctx d d_end hdr) <->
   data ctx <= hdr + off_ipv6_nexthdr < data_end ctx).
Proof.
  unfold off_ip_protocol, off_ipv6_nexthdr, IPPROTO_UDP. split.
  - unfold parse_udphdr_v4, off_ip_protocol, IPPROTO_UDP.
    destruct (load_u8 ctx (hdr + 9)) as [p|] eqn:E; cbn [mbind option_bind].
    + assert (Hr : data ctx <= hdr + 9 < data_end ctx) by (apply load_u8_is_Some; eauto).
      apply load_u8_value in E. replace (hdr + 9 - data ctx) with (hdr - data ctx + 9) in E by lia.
      fold (protocol_at ctx hdr) in E. subst p.
      destruct (Z.eqb_spec (protocol_at ctx hdr) 17) as [Hp|Hp]; cbn [negb].
      * destruct (load_u8 ctx hdr) as [b|] eqn:E0; cbn [mbind option_bind].
        -- assert (data ctx <= hdr < data_end ctx) by (apply load_u8_is_Some; eauto).
           split; [intros _; split; [assumption | intros _; lia]|].
           intros _. destruct (_ >? _); eauto.
        -- split; [intros [x Hx]; discriminate|]. intros [_ Hlo]. exfalso.
           assert (Hs : is_Some (load_u8 ctx hdr)) by (apply load_u8_is_Some; lia).
           rewrite E0 in Hs. destruct Hs as [x Hx]. discriminate.
      * split; [intros _; split; [assumption | intros; contradiction]|]. eauto.
    + split; [intros [x Hx]; discriminate|]. intros [Hr _]. exfalso.
      assert (Hs : is_Some (load_u8 ctx (hdr + 9))) by (apply load_u8_is_Some; lia).
      rewrite E in Hs. destruct Hs as [x Hx]. discriminate.
  - unfold parse_udphdr_v6, off_ipv6_nexthdr.
    destruct (load_u8 ctx (hdr + 6)) as [p|] eqn:E; cbn [mbind option_bind].
    + assert (Hr : data ctx <= hdr + 6 < data_end ctx) by (apply load_u8_is_Some; eauto).
      split; [intros _; assumption|]. intros _.
      destruct (negb _); [eauto|]. destruct (_ >? _); eauto.
    + split; [intros [x Hx]; discriminate|]. intros Hr. exfalso.
      assert (Hs : is_Some (load_u8 ctx (hdr + 6))) by (apply load_u8_is_Some; lia).
      rewrite E in Hs. destruct Hs as [x Hx]. discriminate.
Qed.

(** X7. On a frame that matches the selection criteria, when the redirect
    helper returns XDP_REDIRECT the action is XDP_REDIRECT, the redirected
    counter is incremented by 1 (modulo 2^64) and the dropped counter keeps
    its value. *)
Theorem redirect_success_counted ctx xsks_map stats_map :
  wraith_match ctx = true ->
  bpf_redirect_map xsks_map (rx_queue_index ctx) 0 = XDP_REDIRECT ->
  stats_provisioned stats_map ->
  exists stats_map',
    xdp_wraith_filter host bpf_redirect_map ctx xsks_map stats_map
    = Some (XDP_REDIRECT, stats_map') /\
    stat stats_map' STAT_REDIRECTED = wrap64 (stat stats_map STAT_REDIRECTED + 1) /\
    stat stats_map' STAT_DROPPED = stat stats_map STAT_DROPPED.
Proof.
  intros Hm Hr Hp. rewrite filter_spec, Hm, Hr.
  pose proof (stat_dispatch XDP_REDIRECT (account (frame_len ctx) stats_map)) as Hd.
  pose proof (dispatch_action XDP_REDIRECT (account (frame_len ctx) stats_map)) as Ha.
  change (XDP_REDIRECT =? XDP_REDIRECT) with true in Hd, Ha.
  destruct (dispatch _ _) as [act st'] eqn:E. cbn [fst snd] in *. subst act.
  exists st'. split; [reflexivity|].
  rewrite !Hd by (auto using account_provisioned; unfold STAT_DROPPED, STAT_REDIRECTED; lia).
  rewrite !stat_account by (auto; unfold STAT_DROPPED, STAT_REDIRECTED; lia).
  split; reflexivity.
Qed.

(** X8. The program passes a frame exactly when a parse step or the port
    check fails on it, and a passed frame leaves the statistics array as it
    was: a frame that meets all the criteria is never passed. *)
Theorem passed_iff_parse_failure ctx xsks_map stats_map :
  exists act stats_map',
    xdp_wraith_filter host bpf_redirect_map ctx xsks_map stats_map
    = Some (act, stats_map') /\
    (act = XDP_PASS <-> parse_failure ctx) /\
    (act = XDP_PASS -> stats_map' = stats_map).
Proof.
  rewrite filter_spec. destruct (wraith_match ctx) eqn:Hm.
  - destruct (dispatch _ _) as [act st'] eqn:E. exists act, st'.
    split; [reflexivity|].
    assert (Ha : act <> XDP_PASS).
    { pose proof (dispatch_action (bpf_redirect_map xsks_map (rx_queue_index ctx) 0)
                    (account (frame_len ctx) stats_map)) as Ha.
      rewrite E in Ha. cbn [fst] in Ha. subst act.
      destruct (_ =? XDP_REDIRECT); unfold XDP_REDIRECT, XDP_DROP, XDP_PASS; lia. }
    split; [|intros; contradiction].
    split; [intros; contradiction|].
    intros Hf. apply parse_failure_no_match in Hf. congruence.
  - exists XDP_PASS, stats_map. split; [reflexivity|].
    split; [|reflexivity]. split; [|reflexivity].
    intros _. apply no_match_parse_failure. assumption.
Qed.

(** X9. The program looks only at the length of the frame and at the bytes
    at the inspected offsets of the frame: two frames of the same length
    that agree at these offsets get the same action and the same statistics
    updates when the redirect helper answers alike.  For IPv4 the inspected
    offsets of the port depend on the header length the frame announces. *)
Theorem only_inspected_bytes_matter ctx1 ctx2 xsks1 xsks2 stats_map :
  frame_len ctx1 = frame_len ctx2 ->
  (forall off, In off (inspected_offsets ctx1) ->
               frame_byte ctx1 off = frame_byte ctx2 off) ->
  bpf_redirect_map xsks1 (rx_queue_index ctx1) 0
  = bpf_redirect_map xsks2 (rx_queue_index ctx2) 0 ->
  xdp_wraith_filter host bpf_redirect_map ctx1 xsks1 stats_map
  = xdp_wraith_filter host bpf_redirect_map ctx2 xsks2 stats_map.
Proof.
  intros Hlen Hb Hr. rewrite !filter_spec, Hr, Hlen.
  unfold inspected_offsets in Hb.
  assert (H12 : frame_byte ctx1 12 = frame_byte ctx2 12) by (apply Hb; simpl; tauto).
  assert (H13 : frame_byte ctx1 13 = frame_byte ctx2 13) by (apply Hb; simpl; tauto).
  assert (H14 : frame_byte ctx1 14 = frame_byte ctx2 14) by (apply Hb; simpl; tauto).
  assert (H20 : frame_byte ctx1 20 = frame_byte ctx2 20) by (apply Hb; simpl; tauto).
  assert (Het : ether_type ctx1 = ether_type ctx2).
  { unfold ether_type, be16. change (12 + 1) with 13. rewrite H12, H13. reflexivity. }
  assert (Hv : ip_version ctx1 = ip_version ctx2)
    by (unfold ip_version; rewrite H14; reflexivity).
  assert (Hm : wraith_match ctx1 = wraith_match ctx2); [|rewrite Hm; reflexivity].
  destruct (Z.eqb_spec (ether_type ctx1) 0x0800) as [E4|E4].
  - rewrite !wraith_match_v4 by congruence.
    assert (H21 : frame_byte ctx1 21 = frame_byte ctx2 21) by (apply Hb; simpl; tauto).
    assert (H23 : frame_byte ctx1 23 = frame_byte ctx2 23) by (apply Hb; simpl; tauto).
    assert (Hp0 : frame_byte ctx1 (udp4_offset ctx1 + 2)
                  = frame_byte ctx2 (udp4_offset ctx1 + 2)) by (apply Hb; simpl; tauto).
    assert (Hp1 : frame_byte ctx1 (udp4_offset ctx1 + 3)
                  = frame_byte ctx2 (udp4_offset ctx1 + 3)) by (apply Hb; simpl; tauto).
    assert (Hoff : udp4_offset ctx1 = udp4_offset ctx2)
      by (unfold udp4_offset, ip4_ihl; rewrite H14; reflexivity).
    unfold accepts_udp4, udp4_dport, ip4_protocol, ip4_frag_offset, ip4_frag_field, be16.
    rewrite <- Hoff, <- Het, <- Hv.
    replace (udp4_offset ctx1 + 2 + 1) with (udp4_offset ctx1 + 3) by lia.
    change (20 + 1) with 21.
    rewrite Hlen, H20, H21, H23, Hp0, Hp1. reflexivity.
  - rewrite !wraith_match_not_v4 by congruence.
    assert (H56 : frame_byte ctx1 56 = frame_byte ctx2 56) by (apply Hb; simpl; tauto).
    assert (H57 : frame_byte ctx1 57 = frame_byte ctx2 57) by (apply Hb; simpl; tauto).
    unfold accepts_udp6, udp6_dport, udp6_offset, ip6_next_header, be16.
    rewrite <- Het, <- Hv.
    change (54 + 2) with 56. change (56 + 1) with 57.
    rewrite Hlen, H20, H56, H57. reflexivity.
Qed.

End Steps.

(** * Further properties of the statistics *)

Lemma update_stat_present type delta (st : list Z) v :
  st !! Z.to_nat type = Some v ->
  update_stat type delta st = <[Z.to_nat type := wrap64 (v + delta)]> st.
Proof. intros H. unfold update_stat. rewrite H. reflexivity. Qed.

(** X10. Two updates of the same counter add up: they leave the array as one
    update by the sum of the two amounts does (counters wrap modulo 2^64,
    and nothing happens when the slot is absent). *)
Theorem update_stat_accumulates type d1 d2 (stats_map : list Z) :
  update_stat type d2 (update_stat type d1 stats_map)
  = update_stat type (d1 + d2) stats_map.
Proof.
  destruct (stats_map !! Z.to_nat type) as [v|] eqn:E.
  - rewrite (update_stat_present _ d1 _ _ E), (update_stat_present _ (d1 + d2) _ _ E).
    assert (Hlt : (Z.to_nat type < length stats_map)%nat) by (eapply lookup_lt_Some; eauto).
    rewrite (update_stat_present _ d2 _ (wrap64 (v + d1)))
      by (apply list_lookup_insert_eq; assumption).
    rewrite list_insert_insert_eq, wrap64_add_l. do 2 f_equal. lia.
  - rewrite !(update_stat_absent _ _ _ E). reflexivity.
Qed.

(** X11. Updates of two different counters commute: the array after both
    does not depend on their order, whether or not the slots exist. *)
Theorem update_stat_commutes t1 t2 d1 d2 (stats_map : list Z) :
  0 <= t1 -> 0 <= t2 -> t1 <> t2 ->
  update_stat t1 d1 (update_stat t2 d2 stats_map)
  = update_stat t2 d2 (update_stat t1 d1 stats_map).
Proof.
  intros H1 H2 Hne.
  assert (Hn : Z.to_nat t1 <> Z.to_nat t2) by lia.
  assert (L1 : update_stat t2 d2 stats_map !! Z.to_nat t1 = stats_map !! Z.to_nat t1)
    by (apply lookup_update_stat_ne; assumption).
  assert (L2 : update_stat t1 d1 stats_map !! Z.to_nat t2 = stats_map !! Z.to_nat t2)
    by (apply lookup_update_stat_ne; congruence).
  destruct (stats_map !! Z.to_nat t1) as [v1|] eqn:E1;
    destruct (stats_map !! Z.to_nat t2) as [v2|] eqn:E2.
  - rewrite (update_stat_present t1 d1 _ _ L1), (update_stat_present t2 d2 _ _ L2).
    rewrite (update_stat_present t2 d2 _ _ E2), (update_stat_present t1 d1 _ _ E1).
    apply list_insert_insert_ne. assumption.
  - rewrite (update_stat_absent t2 d2 _ L2).
    rewrite (update_stat_absent t2 d2 _ E2). reflexivity.
  - rewrite (update_stat_absent t1 d1 _ L1).
    rewrite (update_stat_absent t1 d1 _ E1). reflexivity.
  - rewrite (update_stat_absent t1 d1 _ L1), (update_stat_absent t2 d2 _ L2).
    rewrite (update_stat_absent t2 d2 _ E2), (update_stat_absent t1 d1 _ E1). reflexivity.
Qed.

Section Traffic.

Variable host : byte_order.
Variable bpf_redirect_map : gmap Z Z -> Z -> Z -> Z.

(** X12. Over any sequence of invocations on a provisioned array, matching
    or not: every invocation returns, the array stays provisioned, passed
    frames count nowhere, rx_packets grows by the number of redirect and drop
    actions, rx_bytes by the lengths of the matching frames, redirected and
    dropped by the numbers of their actions (all modulo 2^64). *)
Theorem mixed_traffic_accounted invs : forall stats_map,
  stats_provisioned stats_map ->
  exists acts stats_map',
    run_filter host bpf_redirect_map invs stats_map = Some (acts, stats_map') /\
    stats_provisioned stats_map' /\
    count_action XDP_PASS acts + count_action XDP_REDIRECT acts
      + count_action XDP_DROP acts = Z.of_nat (length invs) /\
    stat stats_map' STAT_RX_PACKETS
    = wrap64 (stat stats_map STAT_RX_PACKETS
              + (count_action XDP_REDIRECT acts + count_action XDP_DROP acts)) /\
    stat stats_map' STAT_RX_BYTES
    = wrap64 (stat stats_map STAT_RX_BYTES + matched_frame_len invs) /\
    stat stats_map' STAT_REDIRECTED
    = wrap64 (stat stats_map STAT_REDIRECTED + count_action XDP_REDIRECT acts) /\
    stat stats_map' STAT_DROPPED
    = wrap64 (stat stats_map STAT_DROPPED + count_action XDP_DROP acts).
Proof.
  induction invs as [|[ctx xsks_map] rest IH]; intros st Hp.
  - exists [], st. cbn [run_filter length count_action matched_frame_len].
    rewrite !Z.add_0_r, !wrap64_small by (apply stat_range; assumption).
    repeat split; solve [reflexivity | apply Hp].
  - cbn [run_filter]. rewrite filter_spec.
    cbn [matched_frame_len]. destruct (wraith_match ctx).
    + set (ret := bpf_redirect_map xsks_map (rx_queue_index ctx) 0).
      pose proof (stat_dispatch ret (account (frame_len ctx) st)) as Hd.
      pose proof (dispatch_action ret (account (frame_len ctx) st)) as Ha.
      pose proof (dispatch_provisioned ret _ (account_provisioned (frame_len ctx) _ Hp)) as Hp1.
      destruct (dispatch ret (account (frame_len ctx) st)) as [act st1].
      cbn [fst snd] in Hd, Ha, Hp1. cbn [mbind option_bind].
      destruct (IH st1 Hp1) as (acts & st' & Hrun & Hp' & Hcnt & H0 & H1 & H3 & H2).
      rewrite Hrun. cbn [mbind option_bind].
      exists (act :: acts), st'. split; [reflexivity|]. split; [assumption|].
      cbn [length count_action].
      rewrite H0, H1, H2, H3.
      rewrite !Hd by (auto using account_provisioned;
                      unfold STAT_RX_PACKETS, STAT_RX_BYTES, STAT_REDIRECTED, STAT_DROPPED; lia).
      rewrite !stat_account
        by (auto; unfold STAT_RX_PACKETS, STAT_RX_BYTES, STAT_REDIRECTED, STAT_DROPPED; lia).
      subst act.
      unfold STAT_RX_PACKETS, STAT_RX_BYTES, STAT_REDIRECTED, STAT_DROPPED, XDP_REDIRECT,
        XDP_DROP, XDP_PASS in *.
      destruct (ret =? 4); cbn [Z.eqb Pos.eqb];
        rewrite ?wrap64_add_l;
        repeat split; try (f_equal; lia); lia.
    + cbn [mbind option_bind].
      destruct (IH st Hp) as (acts & st' & Hrun & Hp' & Hcnt & H0 & H1 & H3 & H2).
      rewrite Hrun. cbn [mbind option_bind].
      exists (XDP_PASS :: acts), st'. split; [reflexivity|]. split; [assumption|].
      cbn [length count_action].
      rewrite H0, H1, H2, H3.
      unfold XDP_REDIRECT, XDP_DROP, XDP_PASS in *. cbn [Z.eqb Pos.eqb].
      repeat split; try (f_equal; lia); lia.
Qed.

End Traffic.

(** ** Instances of the further properties *)

Lemma parse_udphdr_v6_fixed_offset_witness :
  data (ctx6 45000) <= 0x200e /\
  0x200e + sizeof_ipv6hdr <= data_end (ctx6 45000) /\
  exists r udphdr,
    parse_udphdr_v6 (ctx6 45000) 0x2000 0x2046 0x200e = Some (r, udphdr) /\
    (r = 0 \/ r = -1) /\
    (r = 0 <-> nexthdr_at (ctx6 45000) 0x200e = IPPROTO_UDP /\
               0x200e + sizeof_ipv6hdr + sizeof_udphdr <= 0x2046) /\
    (nexthdr_at (ctx6 45000) 0x200e = IPPROTO_UDP ->
     udphdr = Some (0x200e + sizeof_ipv6hdr)) /\
    (nexthdr_at (ctx6 45000) 0x200e <> IPPROTO_UDP -> udphdr = None).
Proof.
  assert (H1 : data (ctx6 45000) <= 0x200e) by (vm_compute; discriminate).
  assert (H2 : 0x200e + sizeof_ipv6hdr <= data_end (ctx6 45000))
    by (vm_compute; discriminate).
  split; [exact H1|]. split; [exact H2|].
  exact (parse_udphdr_v6_fixed_offset (ctx6 45000) 0x2000 0x2046 0x200e H1 H2).
Defined.

Lemma redirect_success_counted_witness :
  wraith_match (ctx60 41000) = true /\
  xsk_redirect xsks_queue3 (rx_queue_index (ctx60 41000)) 0 = XDP_REDIRECT /\
  stats_provisioned zero_stats /\
  exists stats_map',
    xdp_wraith_filter LittleEndian xsk_redirect (ctx60 41000) xsks_queue3 zero_stats
    = Some (XDP_REDIRECT, stats_map') /\
    stat stats_map' STAT_REDIRECTED = wrap64 (stat zero_stats STAT_REDIRECTED + 1) /\
    stat stats_map' STAT_DROPPED = stat zero_stats STAT_DROPPED.
Proof.
  assert (H1 : wraith_match (ctx60 41000) = true) by (vm_compute; reflexivity).
  assert (H2 : xsk_redirect xsks_queue3 (rx_queue_index (ctx60 41000)) 0 = XDP_REDIRECT)
    by (vm_compute; reflexivity).
  split; [exact H1|]. split; [exact H2|]. split; [exact zero_stats_provisioned|].
  exact (redirect_success_counted LittleEndian xsk_redirect (ctx60 41000) xsks_queue3
           zero_stats H1 H2 zero_stats_provisioned).
Defined.

Lemma only_inspected_bytes_matter_witness :
  frame_len (ctx60 41000) = frame_len (ctx60_other 41000) /\
  (forall off, In off (inspected_offsets (ctx60 41000)) ->
               frame_byte (ctx60 41000) off = frame_byte (ctx60_other 41000) off) /\
  xsk_redirect xsks_queue3 (rx_queue_index (ctx60 41000)) 0
  = xsk_redirect xsks_queue3 (rx_queue_index (ctx60_other 41000)) 0 /\
  frame (ctx60 41000) <> frame (ctx60_other 41000) /\
  xdp_wraith_filter BigEndian xsk_redirect (ctx60 41000) xsks_queue3 zero_stats
  = xdp_wraith_filter BigEndian xsk_redirect (ctx60_other 41000) xsks_queue3 zero_stats.
Proof.
  assert (H1 : frame_len (ctx60 41000) = frame_len (ctx60_other 41000)) by reflexivity.
  assert (H2 : forall off, In off (inspected_offsets (ctx60 41000)) ->
                 frame_byte (ctx60 41000) off = frame_byte (ctx60_other 41000) off).
  { intros off Hin. vm_compute in Hin.
    repeat (destruct Hin as [<-|Hin]; [vm_compute; reflexivity|]). destruct Hin. }
  assert (H3 : xsk_redirect xsks_queue3 (rx_queue_index (ctx60 41000)) 0
               = xsk_redirect xsks_queue3 (rx_queue_index (ctx60_other 41000)) 0)
    by reflexivity.
  split; [exact H1|]. split; [exact H2|]. split; [exact H3|].
  split; [vm_compute; discriminate|].
  exact (only_inspected_bytes_matter BigEndian xsk_redirect (ctx60 41000)
           (ctx60_other 41000) xsks_queue3 xsks_queue3 zero_stats H1 H2 H3).
Defined.

Lemma update_stat_commutes_witness :
  0 <= STAT_DROPPED /\ 0 <= STAT_REDIRECTED /\ STAT_DROPPED <> STAT_REDIRECTED /\
  update_stat STAT_DROPPED 1 (update_stat STAT_REDIRECTED 2 zero_stats)
  = update_stat STAT_REDIRECTED 2 (update_stat STAT_DROPPED 1 zero_stats).
Proof.
  assert (H1 : 0 <= STAT_DROPPED) by (unfold STAT_DROPPED; lia).
  assert (H2 : 0 <= STAT_REDIRECTED) by (unfold STAT_REDIRECTED; lia).
  assert (H3 : STAT_DROPPED <> STAT_REDIRECTED) by (unfold STAT_DROPPED, STAT_REDIRECTED; lia).
  split; [exact H1|]. split; [exact H2|]. split; [exact H3|].
  exact (update_stat_commutes STAT_DROPPED STAT_REDIRECTED 1 2 zero_stats H1 H2 H3).
Defined.

Lemma mixed_traffic_accounted_witness :
  stats_provisioned zero_stats /\
  exists acts stats_map',
    run_filter LittleEndian xsk_redirect mixed_frames zero_stats
    = Some (acts, stats_map') /\
    stats_provisioned stats_map' /\
    count_action XDP_PASS acts + count_action XDP_REDIRECT acts
      + count_action XDP_DROP acts = Z.of_nat (length mixed_frames) /\
    stat stats_map' STAT_RX_PACKETS
    = wrap64 (stat zero_stats STAT_RX_PACKETS
              + (count_action XDP_REDIRECT acts + count_action XDP_DROP acts)) /\
    stat stats_map' STAT_RX_BYTES
    = wrap64 (stat zero_stats STAT_RX_BYTES + matched_frame_len mixed_frames) /\
    stat stats_map' STAT_REDIRECTED
    = wrap64 (stat zero_stats STAT_REDIRECTED + count_action XDP_REDIRECT acts) /\
    stat stats_map' STAT_DROPPED
    = wrap64 (stat zero_stats STAT_DROPPED + count_action XDP_DROP acts).
Proof.
  split; [exact zero_stats_provisioned|].
  exact (mixed_traffic_accounted LittleEndian xsk_redirect mixed_frames zero_stats
           zero_stats_provisioned).
Defined.

(* What the mixed sequence gives: two frames passed, one redirected, one
   dropped, 130 bytes received. *)
Example mixed_frames_run host :
  run_filter host xsk_redirect mixed_frames zero_stats
  = Some ([XDP_REDIRECT; XDP_PASS; XDP_DROP; XDP_PASS], [2; 130; 1; 1]).
Proof. destruct host; vm_compute; reflexivity. Qed.
